(** * Tines MCP server: request building and response handling

    A shallow embedding of [src/main.py].  Every tool of the server is a
    wrapper that assembles a dict from its arguments and hands it to
    [make_request]; two of them ([connect_actions], [create_story_draft])
    chain several requests.  Python values are a small inductive type,
    dicts are association lists in insertion order, exceptions are a sum
    type, and the HTTP traffic is explicit state: the list of requests sent
    so far, answered by a remote that may depend on the whole history. *)

From Stdlib Require Import ZArith String Ascii List Lia Bool.
From Stdlib Require Import DecimalString DecimalPos DecimalZ.
Import ListNotations.

Set Warnings "-register-all".

Local Open Scope string_scope.
Local Open Scope Z_scope.

(** ** Python values *)

Module Py.

(** JSON-shaped Python values.  Object keys are strings; a dict keeps the
    order in which its keys were inserted.  Numbers are ints: every number
    the tools build or inspect is an id, a page size, a port or a
    coordinate. *)
Inductive pyval : Type :=
| PNone
| PBool (b : bool)
| PInt (z : Z)
| PStr (s : string)
| PList (l : list pyval)
| PDict (d : list (string * pyval)).

Definition dict : Type := list (string * pyval).

(** [d.get(k)] on a dict, without the default. *)
Fixpoint dict_get (d : dict) (k : string) : option pyval :=
  match d with
  | [] => None
  | (k', v) :: d' => if String.eqb k k' then Some v else dict_get d' k
  end.

(** [d[k] = v]: an existing key keeps its place, a new key goes last. *)
Fixpoint dict_set (d : dict) (k : string) (v : pyval) : dict :=
  match d with
  | [] => [(k, v)]
  | (k', v') :: d' =>
      if String.eqb k k' then (k', v) :: d' else (k', v') :: dict_set d' k v
  end.

(** Truth value testing ([if x:], [not x]). *)
Class Truthy (A : Type) := truthy : A -> bool.

#[global] Instance truthy_bool : Truthy bool := fun b => b.
#[global] Instance truthy_int : Truthy Z := fun z => negb (z =? 0).
#[global] Instance truthy_str : Truthy string := fun s => negb (String.eqb s "").
#[global] Instance truthy_list {A : Type} : Truthy (list A) :=
  fun l => match l with [] => false | _ :: _ => true end.
#[global] Instance truthy_option {A : Type} `{Truthy A} : Truthy (option A) :=
  fun o => match o with None => false | Some a => truthy a end.
#[global] Instance truthy_pyval : Truthy pyval :=
  fun v =>
    match v with
    | PNone => false
    | PBool b => truthy b
    | PInt z => truthy z
    | PStr s => truthy s
    | PList l => truthy l
    | PDict d => truthy d
    end.

(** [str(n)] for an int, as used by the f-strings that build endpoints. *)
Definition str_of_int (z : Z) : string := NilZero.string_of_int (Z.to_int z).

(** [s.lstrip(c)] and [s.rstrip(c)] for a one-character argument: every
    leading (trailing) occurrence of [c] goes. *)
Fixpoint lstrip (c : ascii) (s : string) : string :=
  match s with
  | EmptyString => EmptyString
  | String a s' => if Ascii.eqb a c then lstrip c s' else s
  end.

Fixpoint rstrip (c : ascii) (s : string) : string :=
  match s with
  | EmptyString => EmptyString
  | String a s' =>
      match rstrip c s' with
      | EmptyString => if Ascii.eqb a c then EmptyString else String a EmptyString
      | r => String a r
      end
  end.

(** [n == v] for an int [n]: bools compare as 0 and 1, nothing else in a
    JSON value equals an int. *)
Definition py_eq_int (n : Z) (v : pyval) : bool :=
  match v with
  | PInt z => n =? z
  | PBool b => n =? (if b then 1 else 0)
  | _ => false
  end.

(** Values that go into a query string built by hand: the tools that do so
    take only [int] and [str] arguments. *)
Inductive qval : Type :=
| QInt (z : Z)
| QStr (s : string).

Definition qdict : Type := list (string * qval).

Fixpoint qdict_set (d : qdict) (k : string) (v : qval) : qdict :=
  match d with
  | [] => [(k, v)]
  | (k', v') :: d' =>
      if String.eqb k k' then (k', v) :: d' else (k', v') :: qdict_set d' k v
  end.

(** [f"{v}"] *)
Definition format_qval (v : qval) : string :=
  match v with
  | QInt z => str_of_int z
  | QStr s => s
  end.

(** ["&".join([f"{k}={v}" for k, v in params.items()])] *)
Definition query_string (params : qdict) : string :=
  String.concat "&" (map (fun kv => fst kv ++ "=" ++ format_qval (snd kv)) params).

End Py.
Export Py.

(** ** Exceptions and the request monad *)

Module Http.

Inductive exn : Type :=
| HTTPError (status : Z)     (* requests.exceptions.HTTPError, from raise_for_status *)
| ConnectionError            (* a RequestException raised before any response *)
| JSONDecodeError            (* response.json() on a body that is not JSON *)
| ValueError (msg : string)
| TypeError
| AttributeError
| KeyError
| IndexError.

Inductive result (A : Type) : Type :=
| Ok (a : A)
| Raise (e : exn).
Arguments Ok {A} a.
Arguments Raise {A} e.

(** What [requests.request] is called with. *)
Record request : Type := mkRequest {
  method : string;
  url : string;
  headers : list (string * string);
  json : option dict;
  params : option dict
}.

(** The body of a response: nothing, the text of a JSON value, or text that
    is not JSON. *)
Inductive body : Type :=
| EmptyBody
| JsonBody (v : pyval)
| OtherBody (text : string).

Record response : Type := mkResponse {
  status_code : Z;
  content : body
}.

Inductive reply : Type :=
| NoResponse
| Response (r : response).

(** [response.raise_for_status()]: 4xx and 5xx raise. *)
Definition raise_for_status (r : response) : option exn :=
  if (400 <=? status_code r) && (status_code r <? 500) then Some (HTTPError (status_code r))
  else if (500 <=? status_code r) && (status_code r <? 600) then Some (HTTPError (status_code r))
  else None.

(** [response.json()]: decodes the body text, and raises when there is
    nothing to decode. *)
Definition response_json (r : response) : result pyval :=
  match content r with
  | JsonBody v => Ok v
  | EmptyBody => Raise JSONDecodeError
  | OtherBody _ => Raise JSONDecodeError
  end.

(** A computation reads and extends the list of requests sent so far. *)
Definition M (A : Type) : Type := list request -> result A * list request.

Definition ret {A : Type} (a : A) : M A := fun sent => (Ok a, sent).

Definition raise {A : Type} (e : exn) : M A := fun sent => (Raise e, sent).

Definition bind {A B : Type} (m : M A) (k : A -> M B) : M B :=
  fun sent =>
    match m sent with
    | (Ok a, sent') => k a sent'
    | (Raise e, sent') => (Raise e, sent')
    end.

(** [try: ... except Exception as e: logger.error(...); raise]: the handler
    logs and re-raises the exception it caught. *)
Definition try_log_reraise {A : Type} (m : M A) : M A :=
  fun sent =>
    match m sent with
    | (Ok a, sent') => (Ok a, sent')
    | (Raise e, sent') => (Raise e, sent')
    end.

Definition lift {A : Type} (r : result A) : M A :=
  match r with
  | Ok a => ret a
  | Raise e => raise e
  end.

End Http.
Export Http.

Notation "x <- m ;; k" := (bind m (fun x => k))
  (at level 61, m at next level, right associativity).
Notation "m ;;; k" := (bind m (fun _ => k))
  (at level 61, right associativity).

(** ** Operations on values that can raise *)

Module PyOps.

(** [v.get(k, default)]: only a dict has [get]. *)
Definition py_get (v : pyval) (k : string) (default : pyval) : result pyval :=
  match v with
  | PDict d => Ok (match dict_get d k with Some x => x | None => default end)
  | _ => Raise AttributeError
  end.

(** [v[k]] with a string key. *)
Definition py_getitem (v : pyval) (k : string) : result pyval :=
  match v with
  | PDict d => match dict_get d k with Some x => Ok x | None => Raise KeyError end
  | _ => Raise TypeError
  end.

Definition index_of (len : nat) (i : Z) : option nat :=
  if (0 <=? i) && (i <? Z.of_nat len) then Some (Z.to_nat i)
  else if (i <? 0) && (0 <=? Z.of_nat len + i) then Some (Z.to_nat (Z.of_nat len + i))
  else None.

(** [v[i]] with an int index. *)
Definition py_index (v : pyval) (i : Z) : result pyval :=
  match v with
  | PList l =>
      match index_of (List.length l) i with
      | Some n => match nth_error l n with Some x => Ok x | None => Raise IndexError end
      | None => Raise IndexError
      end
  | PStr s =>
      match index_of (String.length s) i with
      | Some n => match String.get n s with
                  | Some c => Ok (PStr (String c EmptyString))
                  | None => Raise IndexError
                  end
      | None => Raise IndexError
      end
  | PDict _ => Raise KeyError
  | _ => Raise TypeError
  end.

(** [n in v] for an int [n]. *)
Definition py_contains_int (n : Z) (v : pyval) : result bool :=
  match v with
  | PList l => Ok (existsb (py_eq_int n) l)
  | PDict _ => Ok false
  | _ => Raise TypeError
  end.

(** [v.append(x)]: only a list has [append]. *)
Definition py_append (v : pyval) (x : pyval) : result pyval :=
  match v with
  | PList l => Ok (PList (l ++ [x]))
  | _ => Raise AttributeError
  end.

End PyOps.
Export PyOps.

(** ** The tools of [src/main.py] *)

Module Tines.

(** [if o is not None: d[k] = f(o)] *)
Definition set_if_not_none {A : Type} (o : option A) (k : string)
    (f : A -> pyval) (d : dict) : dict :=
  match o with
  | Some a => dict_set d k (f a)
  | None => d
  end.

(** [if o: d[k] = f(o)] *)
Definition set_if_truthy {A : Type} `{Truthy A} (o : option A) (k : string)
    (f : A -> pyval) (d : dict) : dict :=
  match o with
  | Some a => if truthy a then dict_set d k (f a) else d
  | None => d
  end.

Definition py_strs (l : list string) : pyval := PList (map PStr l).
Definition py_ints (l : list Z) : pyval := PList (map PInt l).

Section Server.

(** Configuration read from the environment at start-up, and the remote
    service: its answer to a request may depend on everything sent before. *)
Variables BASE_URL TOKEN : string.
Variable remote : list request -> request -> reply.

(** [f"{BASE_URL.rstrip('/')}/{endpoint.lstrip('/')}"] *)
Definition request_url (endpoint : string) : string :=
  rstrip "/" BASE_URL ++ "/" ++ lstrip "/" endpoint.

(** The arguments [make_request] passes to [requests.request]. *)
Definition build_request (method endpoint : string) (data params : option dict)
    : request :=
  let url := request_url endpoint in
  let headers := [("Authorization", "Bearer " ++ TOKEN);
                  ("Content-Type", "application/json")] in
  mkRequest method url headers data params.

(** [make_request]: one authenticated request.  The logging calls do not
    change the outcome and are left out; both [except] clauses re-raise. *)
Definition make_request (method endpoint : string) (data params : option dict)
    : M pyval :=
  fun sent =>
    let req := build_request method endpoint data params in
    match remote sent req with
    | NoResponse => (Raise ConnectionError, (sent ++ [req])%list)
    | Response response =>
        match raise_for_status response with
        | Some e => (Raise e, (sent ++ [req])%list)
        | None => (response_json response, (sent ++ [req])%list)
        end
    end.

(** *** Stories *)

Definition list_stories (team_id folder_id per_page page : option Z)
    (tags search filter order : option string) : M pyval :=
  let params : dict := [] in
  let params := set_if_not_none team_id "team_id" PInt params in
  let params := set_if_not_none folder_id "folder_id" PInt params in
  let params := set_if_not_none per_page "per_page" (fun n => PInt (Z.min n 500)) params in
  let params := set_if_not_none page "page" PInt params in
  let params := set_if_truthy tags "tags" PStr params in
  let params := set_if_truthy search "search" PStr params in
  let params := set_if_truthy filter "filter" PStr params in
  let params := set_if_truthy order "order" PStr params in
  make_request "GET" "stories" None (Some params).

Definition get_story (story_id : Z) (story_mode : option string)
    (draft_id : option Z) : M pyval :=
  let params : dict := [] in
  let params := set_if_truthy story_mode "story_mode" PStr params in
  let params := set_if_not_none draft_id "draft_id" PInt params in
  make_request "GET" ("stories/" ++ str_of_int story_id) None (Some params).

Definition create_story (team_id : Z) (name description : option string)
    (keep_events_for folder_id : option Z) (tags : option (list string))
    (disabled priority : option bool) : M pyval :=
  let story_data : dict := [("team_id", PInt team_id)] in
  let story_data := set_if_not_none name "name" PStr story_data in
  let story_data := set_if_not_none description "description" PStr story_data in
  let story_data := set_if_not_none keep_events_for "keep_events_for" PInt story_data in
  let story_data := set_if_not_none folder_id "folder_id" PInt story_data in
  let story_data := set_if_not_none tags "tags" py_strs story_data in
  let story_data := set_if_not_none disabled "disabled" PBool story_data in
  let story_data := set_if_not_none priority "priority" PBool story_data in
  make_request "POST" "stories" (Some story_data) None.

(** The optional arguments of [update_story], in the order of its
    signature. *)
Record story_update : Type := mkStoryUpdate {
  su_name : option string;
  su_description : option string;
  su_add_tag_names : option (list string);
  su_remove_tag_names : option (list string);
  su_keep_events_for : option Z;
  su_disabled : option bool;
  su_locked : option bool;
  su_priority : option bool;
  su_send_to_story_access_source : option string;
  su_send_to_story_access : option string;
  su_shared_team_slugs : option (list string);
  su_send_to_story_skill_use_requires_confirmation : option bool;
  su_webhook_api_enabled : option bool;
  su_team_id : option Z;
  su_folder_id : option Z;
  su_change_control_enabled : option bool;
  su_draft_id : option Z;
  su_monitor_failures : option bool;
  su_entry_action_id : option Z;
  su_exit_action_ids : option (list Z)
}.

(** Every optional argument of [update_story] left at its default [None]. *)
Definition no_story_update : story_update :=
  mkStoryUpdate None None None None None None None None None None
                None None None None None None None None None None.

Definition update_story_data (a : story_update) : dict :=
  let update_data : dict := [] in
  let update_data := set_if_not_none (su_name a) "name" PStr update_data in
  let update_data := set_if_not_none (su_description a) "description" PStr update_data in
  let update_data := set_if_not_none (su_add_tag_names a) "add_tag_names" py_strs update_data in
  let update_data := set_if_not_none (su_remove_tag_names a) "remove_tag_names" py_strs update_data in
  let update_data := set_if_not_none (su_keep_events_for a) "keep_events_for" PInt update_data in
  let update_data := set_if_not_none (su_disabled a) "disabled" PBool update_data in
  let update_data := set_if_not_none (su_locked a) "locked" PBool update_data in
  let update_data := set_if_not_none (su_priority a) "priority" PBool update_data in
  let update_data := set_if_not_none (su_send_to_story_access_source a)
                       "send_to_story_access_source" PStr update_data in
  let update_data := set_if_not_none (su_send_to_story_access a)
                       "send_to_story_access" PStr update_data in
  let update_data := set_if_not_none (su_shared_team_slugs a)
                       "shared_team_slugs" py_strs update_data in
  let update_data := set_if_not_none (su_send_to_story_skill_use_requires_confirmation a)
                       "send_to_story_skill_use_requires_confirmation" PBool update_data in
  let update_data := set_if_not_none (su_webhook_api_enabled a)
                       "webhook_api_enabled" PBool update_data in
  let update_data := set_if_not_none (su_team_id a) "team_id" PInt update_data in
  let update_data := set_if_not_none (su_folder_id a) "folder_id" PInt update_data in
  let update_data := set_if_not_none (su_change_control_enabled a)
                       "change_control_enabled" PBool update_data in
  let update_data := set_if_not_none (su_draft_id a) "draft_id" PInt update_data in
  let update_data := set_if_not_none (su_monitor_failures a) "monitor_failures" PBool update_data in
  let update_data := set_if_not_none (su_entry_action_id a) "entry_action_id" PInt update_data in
  let update_data := set_if_not_none (su_exit_action_ids a) "exit_action_ids" py_ints update_data in
  update_data.

Definition update_story (story_id : Z) (a : story_update) : M pyval :=
  make_request "PUT" ("stories/" ++ str_of_int story_id) (Some (update_story_data a)) None.

Definition search_stories (query : string) (team_id per_page : option Z) : M pyval :=
  list_stories team_id None per_page None None (Some query) None None.

Definition get_high_priority_stories (team_id per_page : option Z) : M pyval :=
  list_stories team_id None per_page None None None (Some "HIGH_PRIORITY") None.

Definition get_disabled_stories (team_id per_page : option Z) : M pyval :=
  list_stories team_id None per_page None None None (Some "DISABLED") None.

(** [per_page: Optional[int] = 20] in the three signatures above. *)
Definition per_page_default : option Z := Some 20.

(** *** Actions *)

Definition get_story_actions (story_id : Z) (draft_id : option Z) : M pyval :=
  let params : qdict := [("story_id", QInt story_id)] in
  let params := match draft_id with
                | Some n => if truthy n then qdict_set params "draft_id" (QInt n) else params
                | None => params
                end in
  make_request "GET" ("agents?" ++ query_string params) None None.

(** The position given to an action that comes without one. *)
Definition action_default_position : dict := [("x", PInt 100); ("y", PInt 100)].

Definition create_action (story_id : Z) (action_type name : string)
    (options position : option dict) (draft_id : option Z) : M pyval :=
  let data : dict := [("type", PStr action_type);
                      ("name", PStr name);
                      ("story_id", PStr (str_of_int story_id))] in
  let data := set_if_not_none draft_id "draft_id" PInt data in
  let data := set_if_truthy options "options" PDict data in
  let data := if truthy position
              then set_if_not_none position "position" PDict data
              else dict_set data "position" (PDict action_default_position) in
  make_request "POST" "actions" (Some data) None.

Definition create_event_transform_action (story_id : Z) (name : string)
    (draft_id : Z) (mode : string) (message : option string)
    (payload position : option dict) : M pyval :=
  let options : dict := [("mode", PStr mode)] in
  let options := set_if_truthy message "message" PStr options in
  let options := set_if_truthy payload "payload" PDict options in
  create_action story_id "Agents::EventTransformationAgent" name
    (Some options) position (Some draft_id).

(** [mode: str = "message"] *)
Definition mode_default : string := "message".

Definition create_webhook_action (story_id : Z) (name : string) (draft_id : Z)
    (secret : option string) (position : option dict) : M pyval :=
  let options : dict := [] in
  let options := set_if_truthy secret "secret" PStr options in
  create_action story_id "Agents::WebhookAgent" name
    (Some options) position (Some draft_id).

Definition create_email_action (story_id : Z) (name : string) (draft_id : Z)
    (to subject body : string) (from_email cc bcc : option string)
    (content_type : string) (position : option dict) : M pyval :=
  let options : dict := [("to", PStr to);
                         ("subject", PStr subject);
                         ("body", PStr body);
                         ("content_type", PStr content_type)] in
  let options := set_if_truthy from_email "from" PStr options in
  let options := set_if_truthy cc "cc" PStr options in
  let options := set_if_truthy bcc "bcc" PStr options in
  create_action story_id "Agents::EmailAgent" name
    (Some options) position (Some draft_id).

(** [content_type: str = "text/html"] *)
Definition content_type_default : string := "text/html".

Definition create_imap_action (story_id : Z) (name : string) (draft_id : Z)
    (host username password : string) (port : Z) (ssl : bool) (folder : string)
    (conditions position : option dict) : M pyval :=
  let options : dict := [("host", PStr host);
                         ("username", PStr username);
                         ("password", PStr password);
                         ("port", PInt port);
                         ("ssl", PBool ssl);
                         ("folder", PStr folder)] in
  let options := set_if_truthy conditions "conditions" PDict options in
  create_action story_id "Agents::IMAPAgent" name
    (Some options) position (Some draft_id).

(** [port: int = 993], [ssl: bool = True], [folder: str = "INBOX"] *)
Definition port_default : Z := 993.
Definition ssl_default : bool := true.
Definition folder_default : string := "INBOX".

Definition create_send_to_story_action (story_id : Z) (name : string)
    (draft_id target_story_id : Z) (payload position : option dict) : M pyval :=
  let options : dict := [("story_id", PInt target_story_id)] in
  let options := set_if_truthy payload "payload" PDict options in
  create_action story_id "Agents::SendToStoryAgent" name
    (Some options) position (Some draft_id).

Definition create_trigger_action (story_id : Z) (name : string) (draft_id : Z)
    (rules : list pyval) (message : option string) (position : option dict)
    : M pyval :=
  let options : dict := [("rules", PList rules)] in
  let options := set_if_truthy message "message" PStr options in
  create_action story_id "Agents::TriggerAgent" name
    (Some options) position (Some draft_id).

Definition create_group_action (story_id : Z) (name : string)
    (draft_id group_story_id : Z) (position : option dict) : M pyval :=
  let options : dict := [("group_story_id", PInt group_story_id)] in
  create_action story_id "Agents::GroupAgent" name
    (Some options) position (Some draft_id).

Definition create_llm_action (story_id : Z) (name prompt : string) (draft_id : Z)
    (json_mode : bool) (position : option dict) : M pyval :=
  let options : dict := [("prompt", PStr prompt); ("json_mode", PBool json_mode)] in
  create_action story_id "Agents::LLMAgent" name
    (Some options) position (Some draft_id).

(** [json_mode: bool = False] *)
Definition json_mode_default : bool := false.

Definition update_action (story_id action_id : Z) (name : option string)
    (options position : option dict) (draft_id : option Z) : M pyval :=
  let data : dict := [] in
  let data := set_if_truthy name "name" PStr data in
  let data := set_if_truthy options "options" PDict data in
  let data := set_if_truthy position "position" PDict data in
  let data := set_if_truthy draft_id "draft_id" PInt data in
  make_request "PUT" ("actions/" ++ str_of_int action_id) (Some data) None.

Definition delete_action (story_id action_id : Z) : M pyval :=
  make_request "DELETE" ("actions/" ++ str_of_int action_id) None None.

Definition connect_actions (story_id source_action_id target_action_id : Z)
    (source_output : option string) (draft_id : option Z) : M pyval :=
  target_action <- make_request "GET" ("actions/" ++ str_of_int target_action_id) None None ;;
  current_sources <- lift (py_get target_action "sources" (PList [])) ;;
  found <- lift (py_contains_int source_action_id current_sources) ;;
  current_sources <- (if negb found
                      then lift (py_append current_sources (PInt source_action_id))
                      else ret current_sources) ;;
  let data : dict := [("source_ids", current_sources)] in
  let data := set_if_truthy draft_id "draft_id" PInt data in
  make_request "PUT" ("actions/" ++ str_of_int target_action_id) (Some data) None.

(** *** Drafts *)

Definition list_story_drafts (story_id : Z) : M pyval :=
  make_request "GET" ("stories/" ++ str_of_int story_id ++ "/drafts") None None.

Definition get_story_draft (story_id draft_id : Z) : M pyval :=
  make_request "GET"
    ("stories/" ++ str_of_int story_id ++ "/drafts/" ++ str_of_int draft_id) None None.

Definition create_story_draft (story_id : Z) : M pyval :=
  try_log_reraise (
    make_request "PUT" ("stories/" ++ str_of_int story_id)
      (Some [("add_tag_names", PList [PStr "draft-creation"])]) None ;;;
    drafts <- list_story_drafts story_id ;;
    listed <- lift (py_get drafts "drafts" PNone) ;;
    if truthy listed then
      all_drafts <- lift (py_getitem drafts "drafts") ;;
      latest_draft <- lift (py_index all_drafts 0) ;;
      latest_id <- lift (py_getitem latest_draft "id") ;;
      make_request "PUT" ("stories/" ++ str_of_int story_id)
        (Some [("remove_tag_names", PList [PStr "draft-creation"]);
               ("draft_id", latest_id)]) None ;;;
      ret latest_draft
    else
      raise (ValueError "No draft was created")).

(** *** Notes *)

(** The position given to a note that comes without one. *)
Definition note_default_position : dict := [("x", PInt 0); ("y", PInt 0)].

Definition create_note (content : string) (story_id group_id : option Z)
    (position : option dict) (draft_id : option Z) : M pyval :=
  if negb (truthy story_id) && negb (truthy group_id) then
    raise (ValueError "Either story_id or group_id must be provided")
  else
    let data : dict := [("content", PStr content)] in
    let data := set_if_truthy story_id "story_id" PInt data in
    let data := set_if_truthy group_id "group_id" PInt data in
    let data := if truthy position
                then set_if_not_none position "position" PDict data
                else dict_set data "position" (PDict note_default_position) in
    let data := set_if_truthy draft_id "draft_id" PInt data in
    make_request "POST" "notes" (Some data) None.

Definition get_note (note_id : Z) : M pyval :=
  make_request "GET" ("notes/" ++ str_of_int note_id) None None.

Definition update_note (note_id : Z) (content : option string)
    (position : option dict) : M pyval :=
  let data : dict := [] in
  let data := set_if_not_none content "content" PStr data in
  let data := set_if_not_none position "position" PDict data in
  if negb (truthy data) then
    raise (ValueError "At least one of content or position must be provided")
  else
    make_request "PUT" ("notes/" ++ str_of_int note_id) (Some data) None.

Definition set_q_if_not_none {A : Type} (o : option A) (k : string)
    (f : A -> qval) (d : qdict) : qdict :=
  match o with
  | Some a => qdict_set d k (f a)
  | None => d
  end.

Definition list_notes (story_id group_id team_id : option Z) (mode : option string)
    (draft_id per_page page : option Z) : M pyval :=
  let params : qdict := [] in
  let params := set_q_if_not_none story_id "story_id" QInt params in
  let params := set_q_if_not_none group_id "group_id" QInt params in
  let params := set_q_if_not_none team_id "team_id" QInt params in
  let params := set_q_if_not_none mode "mode" QStr params in
  let params := set_q_if_not_none draft_id "draft_id" QInt params in
  let params := set_q_if_not_none per_page "per_page" QInt params in
  let params := set_q_if_not_none page "page" QInt params in
  let query := query_string params in
  let endpoint := "notes" in
  let endpoint := if truthy query then endpoint ++ "?" ++ query else endpoint in
  make_request "GET" endpoint None None.

Definition delete_note (note_id : Z) : M pyval :=
  make_request "DELETE" ("notes/" ++ str_of_int note_id) None None ;;;
  ret (PDict [("deleted", PBool true); ("note_id", PInt note_id)]).

End Server.

End Tines.
Export Tines.

(** ** Vocabulary of the statements *)

Module Spec.

(** The remote answers [req], sent after [sent], with a success status and
    the JSON value [v]. *)
Definition answers (remote : list request -> request -> reply)
    (sent : list request) (req : request) (v : pyval) : Prop :=
  exists r, remote sent req = Response r
            /\ raise_for_status r = None
            /\ content r = JsonBody v.

(** The field names a request carries, in its body and in its query. *)
Definition keys_of (o : option dict) : list string :=
  match o with
  | Some d => map fst d
  | None => []
  end.

Definition fields_of (req : request) : list string :=
  (keys_of (json req) ++ keys_of (params req))%list.

(** Run after [sent], the computation sends exactly the requests [reqs]. *)
Definition sends {A : Type} (m : M A) (sent reqs : list request) : Prop :=
  snd (m sent) = (sent ++ reqs)%list.

(** How many elements of [l] equal the int [n]. *)
Definition occurrences (n : Z) (l : list pyval) : nat :=
  List.length (filter (py_eq_int n) l).

(** The list [connect_actions] writes back for a fetched list [l]. *)
Definition linked (n : Z) (l : list pyval) : list pyval :=
  if existsb (py_eq_int n) l then l else (l ++ [PInt n])%list.

(** [n] copies of ["/"]. *)
Fixpoint slashes (n : nat) : string :=
  match n with
  | O => EmptyString
  | S n' => String "/" (slashes n')
  end.

Definition starts_with (c : ascii) (s : string) : bool :=
  match s with
  | EmptyString => false
  | String a _ => Ascii.eqb a c
  end.

Fixpoint ends_with (c : ascii) (s : string) : bool :=
  match s with
  | EmptyString => false
  | String a EmptyString => Ascii.eqb a c
  | String _ s' => ends_with c s'
  end.

(** The URL rule in the words of the specification: exactly one trailing
    slash of the base and exactly one leading slash of the endpoint go. *)
Definition strip_one_leading (c : ascii) (s : string) : string :=
  match s with
  | EmptyString => EmptyString
  | String a s' => if Ascii.eqb a c then s' else s
  end.

Fixpoint strip_one_trailing (c : ascii) (s : string) : string :=
  match s with
  | EmptyString => EmptyString
  | String a EmptyString => if Ascii.eqb a c then EmptyString else s
  | String a s' => String a (strip_one_trailing c s')
  end.

Definition spec_request_url (base endpoint : string) : string :=
  strip_one_trailing "/" base ++ "/" ++ strip_one_leading "/" endpoint.

(** The three requests of the draft workflow. *)
Definition add_tag_request (base token : string) (story_id : Z) : request :=
  build_request base token "PUT" ("stories/" ++ str_of_int story_id)
    (Some [("add_tag_names", PList [PStr "draft-creation"])]) None.

Definition list_drafts_request (base token : string) (story_id : Z) : request :=
  build_request base token "GET" ("stories/" ++ str_of_int story_id ++ "/drafts")
    None None.

Definition remove_tag_request (base token : string) (story_id : Z)
    (draft_id : pyval) : request :=
  build_request base token "PUT" ("stories/" ++ str_of_int story_id)
    (Some [("remove_tag_names", PList [PStr "draft-creation"]);
           ("draft_id", draft_id)]) None.

(** The two requests of [connect_actions]. *)
Definition fetch_target_request (base token : string) (target_action_id : Z)
    : request :=
  build_request base token "GET" ("actions/" ++ str_of_int target_action_id)
    None None.

Definition write_sources_request (base token : string) (target_action_id : Z)
    (sources : pyval) (draft_id : option Z) : request :=
  build_request base token "PUT" ("actions/" ++ str_of_int target_action_id)
    (Some (set_if_truthy draft_id "draft_id" PInt [("source_ids", sources)])) None.

End Spec.
Export Spec.

(** ** Remotes used to run the tools on concrete inputs *)

Module Remotes.

Definition ok (v : pyval) : reply := Response (mkResponse 200 (JsonBody v)).

(** The same answer to every request. *)
Definition always (r : reply) : list request -> request -> reply :=
  fun _ _ => r.

(** The n-th request gets the n-th answer of the script. *)
Definition scripted (script : list reply) : list request -> request -> reply :=
  fun sent _ => nth (List.length sent) script NoResponse.

(** The [source_ids] of the last update among [sent], if any. *)
Fixpoint last_written (sent : list request) (current : pyval) : pyval :=
  match sent with
  | [] => current
  | req :: sent' =>
      match json req with
      | Some d =>
          match dict_get d "source_ids" with
          | Some v => last_written sent' v
          | None => last_written sent' current
          end
      | None => last_written sent' current
      end
  end.

(** A remote that keeps one action: a GET shows its sources, an update
    with [source_ids] replaces them. *)
Definition action_store (initial : list pyval) : list request -> request -> reply :=
  fun sent req =>
    if String.eqb (method req) "GET"
    then ok (PDict [("id", PInt 9); ("sources", last_written sent (PList initial))])
    else ok (PDict [("id", PInt 9)]).

End Remotes.
Export Remotes.

(** ** Start-up configuration and the debugging helper *)

Module Startup.

(** [value = os.getenv(name)] followed by [if not value: raise
    ValueError(message)]. *)
Definition require_env (env : string -> option string) (name message : string)
    : result string :=
  match env name with
  | Some value => if truthy value then Ok value else Raise (ValueError message)
  | None => Raise (ValueError message)
  end.

(** The module-level checks on [TINES_API_TOKEN] and [TINES_API_URL]: [env]
    is [os.getenv] once [load_dotenv] has run.  The result is the pair
    [(BASE_URL, TOKEN)], or the [ValueError] that stops the import. *)
Definition load_config (env : string -> option string) : result (string * string) :=
  match require_env env "TINES_API_TOKEN"
          "TINES_API_TOKEN environment variable is not set" with
  | Raise e => Raise e
  | Ok TOKEN =>
      match require_env env "TINES_API_URL"
              "TINES_API_URL environment variable is not set. Use format: https://your-tenant.tines.com/api/v1" with
      | Raise e => Raise e
      | Ok BASE_URL => Ok (BASE_URL, TOKEN)
      end
  end.

End Startup.
Export Startup.

Module Diagnostics.

(** [try: m except Exception as e: handler(e)] *)
Definition try_except {A : Type} (m : M A) (handler : exn -> M A) : M A :=
  fun sent =>
    match m sent with
    | (Ok a, sent') => (Ok a, sent')
    | (Raise e, sent') => handler e sent'
    end.

Section Describe.

(** [str(e)]: the text of an exception is left to the libraries that raise
    it. *)
Variable str_of_exn : exn -> string.

Variables BASE_URL TOKEN : string.
Variable remote : list request -> request -> reply.

Definition debug_endpoint (endpoint method : string) (data : option dict) : M pyval :=
  try_except
    (result <- make_request BASE_URL TOKEN remote method endpoint data None ;;
     ret (PDict [("success", PBool true); ("data", result)]))
    (fun e => ret (PDict [("success", PBool false); ("error", PStr (str_of_exn e))])).

End Describe.

End Diagnostics.
Export Diagnostics.

(** ** Vocabulary of the further statements *)

Module Props.

(** A request as [make_request] builds it: the bearer token and the JSON
    content type in its headers, and a URL made from the base URL. *)
Definition authenticated (base token : string) (req : request) : Prop :=
  headers req = [("Authorization", "Bearer " ++ token);
                 ("Content-Type", "application/json")]
  /\ exists endpoint, url req = request_url base endpoint.

(** The computation keeps the requests already sent, adds at most [bound]
    requests to them, and every request it adds is authenticated. *)
Definition adds_at_most {A : Type} (base token : string) (bound : nat) (m : M A)
    : Prop :=
  forall sent, exists new,
    snd (m sent) = (sent ++ new)%list
    /\ (List.length new <= bound)%nat
    /\ Forall (authenticated base token) new.

(** The method, URL, JSON body and query parameters of a request, read off
    its fields. *)
Definition carries (req : request) (verb address : string)
    (body query : option dict) : Prop :=
  method req = verb
  /\ url req = address
  /\ json req = body
  /\ params req = query.

(** Run after [sent], the computation sends exactly one request, and that
    request carries the given method, URL, body and query. *)
Definition sends_request {A : Type} (m : M A) (sent : list request)
    (verb address : string) (body query : option dict) : Prop :=
  exists req,
    snd (m sent) = (sent ++ [req])%list
    /\ carries req verb address body query.

(** A field that is there when its value is. *)
Definition field {A : Type} (k : string) (f : A -> pyval) (o : option A) : dict :=
  match o with
  | Some a => [(k, f a)]
  | None => []
  end.

(** The argument, when it was supplied and is not falsy. *)
Definition if_truthy {A : Type} `{Truthy A} (o : option A) : option A :=
  match o with
  | Some a => if truthy a then Some a else None
  | None => None
  end.

(** The position sent for an action or a note: the caller's when it is a
    non-empty dict, the default otherwise. *)
Definition position_or (default : dict) (position : option dict) : dict :=
  match if_truthy position with
  | Some p => p
  | None => default
  end.

(** The body [create_action] sends for a typed action with its options. *)
Definition typed_action_body (action_type name : string) (story_id draft_id : Z)
    (options : dict) (position : option dict) : dict :=
  ([("type", PStr action_type);
    ("name", PStr name);
    ("story_id", PStr (str_of_int story_id));
    ("draft_id", PInt draft_id)]
   ++ field "options" PDict (if_truthy (Some options))
   ++ [("position", PDict (position_or action_default_position position))])%list.

(** A query parameter that is there when its value is. *)
Definition qfield {A : Type} (k : string) (f : A -> qval) (o : option A) : qdict :=
  match o with
  | Some a => [(k, f a)]
  | None => []
  end.

(** The HTTP status of a response is an error status. *)
Definition error_status (status : Z) : Prop := 400 <= status < 600.

End Props.
Export Props.

(** ** Basic facts about dicts and the request monad *)

Lemma dict_get_set_same (d : dict) (k : string) (v : pyval) :
  dict_get (dict_set d k v) k = Some v.
Proof.
  induction d as [|[k' v'] d IH]; simpl.
  - now rewrite String.eqb_refl.
  - destruct (String.eqb k k') eqn:E; simpl; rewrite E; auto.
Qed.

Lemma dict_get_set_other (d : dict) (k k' : string) (v : pyval) :
  k <> k' -> dict_get (dict_set d k v) k' = dict_get d k'.
Proof.
  intros Hne. induction d as [|[k0 v0] d IH]; simpl.
  - destruct (String.eqb k' k) eqn:E; auto.
    apply String.eqb_eq in E. congruence.
  - destruct (String.eqb k k0) eqn:E; simpl.
    + apply String.eqb_eq in E. subst k0.
      destruct (String.eqb k' k) eqn:E'; auto.
      apply String.eqb_eq in E'. congruence.
    + now rewrite IH.
Qed.

Lemma set_if_not_none_other {A : Type} (o : option A) (k k' : string)
    (f : A -> pyval) (d : dict) :
  k <> k' -> dict_get (set_if_not_none o k f d) k' = dict_get d k'.
Proof.
  intros Hne. destruct o; simpl; auto using dict_get_set_other.
Qed.

Lemma set_if_truthy_other {A : Type} `{Truthy A} (o : option A) (k k' : string)
    (f : A -> pyval) (d : dict) :
  k <> k' -> dict_get (set_if_truthy o k f d) k' = dict_get d k'.
Proof.
  intros Hne. destruct o as [a|]; simpl; auto.
  destruct (truthy a); auto using dict_get_set_other.
Qed.

Lemma try_log_reraise_id {A : Type} (m : M A) (sent : list request) :
  try_log_reraise m sent = m sent.
Proof.
  unfold try_log_reraise. now destruct (m sent) as [[a|e] sent'].
Qed.

Lemma bind_ok {A B : Type} (m : M A) (k : A -> M B) sent a sent' :
  m sent = (Ok a, sent') -> bind m k sent = k a sent'.
Proof.
  intros E. unfold bind. now rewrite E.
Qed.

Lemma bind_raise {A B : Type} (m : M A) (k : A -> M B) sent e sent' :
  m sent = (Raise e, sent') -> bind m k sent = (Raise e, sent').
Proof.
  intros E. unfold bind. now rewrite E.
Qed.

Lemma bind_lift_ok {A B : Type} (r : result A) (k : A -> M B) sent a :
  r = Ok a -> bind (lift r) k sent = k a sent.
Proof.
  intros ->. reflexivity.
Qed.

Lemma bind_lift_raise {A B : Type} (r : result A) (k : A -> M B) sent e :
  r = Raise e -> bind (lift r) k sent = (Raise e, sent).
Proof.
  intros ->. reflexivity.
Qed.

Section MakeRequest.

Variables base token : string.
Variable remote : list request -> request -> reply.

(** Whatever the remote does, [make_request] sends exactly one request. *)
Lemma make_request_sent method endpoint data params sent :
  snd (make_request base token remote method endpoint data params sent)
  = (sent ++ [build_request base token method endpoint data params])%list.
Proof.
  unfold make_request.
  destruct (remote sent _) as [|r]; [reflexivity|].
  now destruct (raise_for_status r).
Qed.

(** A success status with a JSON body [v] makes [make_request] return [v]
    itself. *)
Lemma make_request_answers method endpoint data params sent v :
  answers remote sent (build_request base token method endpoint data params) v ->
  make_request base token remote method endpoint data params sent
  = (Ok v, (sent ++ [build_request base token method endpoint data params])%list).
Proof.
  intros (r & Hr & Hs & Hc). unfold make_request.
  rewrite Hr, Hs. unfold response_json. now rewrite Hc.
Qed.

(** A success status with nothing in the body makes [make_request] raise. *)
Lemma make_request_empty_body method endpoint data params sent r :
  remote sent (build_request base token method endpoint data params) = Response r ->
  raise_for_status r = None ->
  content r = EmptyBody ->
  make_request base token remote method endpoint data params sent
  = (Raise JSONDecodeError,
     (sent ++ [build_request base token method endpoint data params])%list).
Proof.
  intros Hr Hs Hc. unfold make_request.
  rewrite Hr, Hs. unfold response_json. now rewrite Hc.
Qed.

(** The one request of [make_request], field by field. *)
Lemma make_request_sends_as method endpoint data params sent body query :
  data = body ->
  params = query ->
  sends_request (make_request base token remote method endpoint data params) sent
    method (request_url base endpoint) body query.
Proof.
  intros <- <-. eexists. split; [apply make_request_sent|].
  repeat split.
Qed.

End MakeRequest.

(** ** The request executor *)

(** C2.  A 204 answer to a deletion has no body; on it [make_request] raises
    the decoding error of [response.json()] instead of returning an empty
    object, and [delete_note], whose comment expects that answer, fails with
    it as well. *)
Theorem make_request_204_raises :
  make_request "https://tenant.tines.com/api/v1" "token"
    (always (Response (mkResponse 204 EmptyBody)))
    "DELETE" "notes/7" None None []
  = (Raise JSONDecodeError,
     [build_request "https://tenant.tines.com/api/v1" "token"
        "DELETE" "notes/7" None None])
  /\ fst (delete_note "https://tenant.tines.com/api/v1" "token"
            (always (Response (mkResponse 204 EmptyBody))) 7 [])
     = Raise JSONDecodeError.
Proof.
  split; reflexivity.
Qed.

Section Drafts.

Variables base token : string.
Variable remote : list request -> request -> reply.

(** C3.  When the add-tag update succeeds and the draft listing that follows
    holds an empty list of drafts, [create_story_draft] raises its
    "No draft was created" error after exactly two requests: the update and
    the listing.  No tag removal is sent and no draft is returned. *)
Theorem create_story_draft_no_draft story_id sent updated listing :
  answers remote sent (add_tag_request base token story_id) updated ->
  answers remote (sent ++ [add_tag_request base token story_id]) (list_drafts_request base token story_id) (PDict listing) ->
  dict_get listing "drafts" = Some (PList []) ->
  create_story_draft base token remote story_id sent
  = (Raise (ValueError "No draft was created"),
     (sent ++ [add_tag_request base token story_id; list_drafts_request base token story_id])%list).
Proof.
  intros Hput Hget Hempty.
  unfold create_story_draft. rewrite try_log_reraise_id.
  rewrite (bind_ok _ _ _ _ _ (make_request_answers _ _ _ _ _ _ _ _ _ Hput)).
  unfold list_story_drafts.
  rewrite (bind_ok _ _ _ _ _ (make_request_answers _ _ _ _ _ _ _ _ _ Hget)).
  rewrite bind_lift_ok with (a := PList [])
    by (cbn [py_get]; now rewrite Hempty).
  change (truthy (PList [])) with false. cbv iota.
  unfold raise. now rewrite <- app_assoc.
Qed.

(** The success path: three requests, and the first listed draft as the
    result. *)
Lemma create_story_draft_success
    story_id sent updated listing draft others draft_id removed :
  answers remote sent (add_tag_request base token story_id) updated ->
  answers remote (sent ++ [add_tag_request base token story_id]) (list_drafts_request base token story_id) (PDict listing) ->
  dict_get listing "drafts" = Some (PList (PDict draft :: others)) ->
  dict_get draft "id" = Some draft_id ->
  answers remote (sent ++ [add_tag_request base token story_id; list_drafts_request base token story_id])
    (remove_tag_request base token story_id draft_id) removed ->
  create_story_draft base token remote story_id sent
  = (Ok (PDict draft),
     (sent ++ [add_tag_request base token story_id; list_drafts_request base token story_id;
               remove_tag_request base token story_id draft_id])%list).
Proof.
  intros Hput Hget Hdrafts Hid Hremove.
  unfold create_story_draft. rewrite try_log_reraise_id.
  rewrite (bind_ok _ _ _ _ _ (make_request_answers _ _ _ _ _ _ _ _ _ Hput)).
  unfold list_story_drafts.
  rewrite (bind_ok _ _ _ _ _ (make_request_answers _ _ _ _ _ _ _ _ _ Hget)).
  rewrite <- app_assoc. cbn [app]. fold (list_drafts_request base token story_id).
  rewrite bind_lift_ok with (a := PList (PDict draft :: others))
    by (cbn [py_get]; now rewrite Hdrafts).
  change (truthy (PList (PDict draft :: others))) with true. cbv iota.
  rewrite bind_lift_ok with (a := PList (PDict draft :: others))
    by (cbn [py_getitem]; now rewrite Hdrafts).
  rewrite bind_lift_ok with (a := PDict draft) by reflexivity.
  rewrite bind_lift_ok with (a := draft_id)
    by (cbn [py_getitem]; now rewrite Hid).
  cbv beta.
  rewrite (bind_ok _ _ _ _ _ (make_request_answers _ _ _ _ _ _ _ _ _ Hremove)).
  unfold ret. now rewrite <- app_assoc.
Qed.

(** C9.  On the success path the third request is the tag removal: a PUT
    to the story whose JSON body holds [remove_tag_names] and, as
    [draft_id], the [id] of the first listed draft; the value returned is
    that first listed draft. *)
Theorem create_story_draft_scoped_removal
    story_id sent updated listing draft others draft_id removed :
  answers remote sent (add_tag_request base token story_id) updated ->
  answers remote (sent ++ [add_tag_request base token story_id])
    (list_drafts_request base token story_id) (PDict listing) ->
  dict_get listing "drafts" = Some (PList (PDict draft :: others)) ->
  dict_get draft "id" = Some draft_id ->
  answers remote (sent ++ [add_tag_request base token story_id;
                           list_drafts_request base token story_id])
    (remove_tag_request base token story_id draft_id) removed ->
  exists add listed removal,
    create_story_draft base token remote story_id sent
    = (Ok (PDict draft), (sent ++ [add; listed; removal])%list)
    /\ method add = "PUT"
    /\ url add = request_url base ("stories/" ++ str_of_int story_id)
    /\ json add = Some [("add_tag_names", PList [PStr "draft-creation"])]
    /\ method listed = "GET"
    /\ url listed = request_url base ("stories/" ++ str_of_int story_id ++ "/drafts")
    /\ json listed = None
    /\ method removal = "PUT"
    /\ url removal = request_url base ("stories/" ++ str_of_int story_id)
    /\ json removal = Some [("remove_tag_names", PList [PStr "draft-creation"]);
                            ("draft_id", draft_id)]
    /\ params removal = None.
Proof.
  intros Hput Hget Hdrafts Hid Hremove.
  exists (add_tag_request base token story_id),
         (list_drafts_request base token story_id),
         (remove_tag_request base token story_id draft_id).
  split.
  - now apply create_story_draft_success
      with (updated := updated) (listing := listing) (others := others)
           (removed := removed).
  - repeat split.
Qed.

End Drafts.

(** ** Parameter mapping *)

Section Mapping.

Variables base token : string.
Variable remote : list request -> request -> reply.

(** [update_story] tests its arguments against [None]: an explicit
    [disabled=False] is sent, an omitted [disabled] is not. *)
Lemma update_story_disabled_false sent :
  snd (update_story base token remote 5
         (mkStoryUpdate None None None None None (Some false) None None None None
                        None None None None None None None None None None) sent)
  = (sent ++ [build_request base token "PUT" "stories/5"
                (Some [("disabled", PBool false)]) None])%list.
Proof.
  unfold update_story. now rewrite make_request_sent.
Qed.

Lemma update_story_disabled_omitted sent :
  snd (update_story base token remote 5 no_story_update sent)
  = (sent ++ [build_request base token "PUT" "stories/5" (Some []) None])%list.
Proof.
  unfold update_story. now rewrite make_request_sent.
Qed.

(** C1.  [update_story] keeps an explicit [False]: with [disabled=False] the
    body is [{"disabled": false}], without it the body has no such key.
    [update_action] tests the truth value of its arguments instead: an
    explicitly supplied empty name, empty [options], empty [position] and
    [draft_id=0] all disappear, and the body sent is the empty dict. *)
Theorem update_action_drops_falsy_arguments sent :
  snd (update_story base token remote 5
         (mkStoryUpdate None None None None None (Some false) None None None None
                        None None None None None None None None None None) sent)
  = (sent ++ [build_request base token "PUT" "stories/5"
                (Some [("disabled", PBool false)]) None])%list
  /\ snd (update_story base token remote 5 no_story_update sent)
     = (sent ++ [build_request base token "PUT" "stories/5" (Some []) None])%list
  /\ snd (update_action base token remote 1 2 None (Some []) None None sent)
     = (sent ++ [build_request base token "PUT" "actions/2" (Some []) None])%list
  /\ snd (update_action base token remote 1 2 (Some "") (Some []) (Some []) (Some 0) sent)
     = (sent ++ [build_request base token "PUT" "actions/2" (Some []) None])%list.
Proof.
  repeat split.
  - apply update_story_disabled_false.
  - apply update_story_disabled_omitted.
  - unfold update_action. now rewrite make_request_sent.
  - unfold update_action. now rewrite make_request_sent.
Qed.

(** C5.  Whatever else [list_stories] is called with, the query parameters
    of the request it sends hold a supplied [per_page] as
    [min(per_page, 500)]; [per_page=1000] alone gives the query
    [{"per_page": 500}]. *)
Theorem list_stories_clamps_per_page
    (team_id folder_id page : option Z) (tags search filter order : option string)
    (per_page : Z) sent :
  (exists req query,
     snd (list_stories base token remote team_id folder_id (Some per_page) page
            tags search filter order sent)
     = (sent ++ [req])%list
     /\ method req = "GET"
     /\ url req = request_url base "stories"
     /\ json req = None
     /\ params req = Some query
     /\ dict_get query "per_page" = Some (PInt (Z.min per_page 500)))
  /\ (exists req,
        snd (list_stories base token remote None None (Some 1000) None
               None None None None sent)
        = (sent ++ [req])%list
        /\ method req = "GET"
        /\ url req = request_url base "stories"
        /\ json req = None
        /\ params req = Some [("per_page", PInt 500)]).
Proof.
  split.
  - unfold list_stories. rewrite make_request_sent.
    eexists. eexists. split; [reflexivity|].
    do 4 (split; [reflexivity|]).
    repeat (rewrite set_if_truthy_other by discriminate).
    rewrite set_if_not_none_other by discriminate.
    cbn [set_if_not_none]. apply dict_get_set_same.
  - unfold list_stories. rewrite make_request_sent.
    eexists. repeat split.
Qed.

(** C7.  [create_note] without [story_id] and [group_id], and [update_note]
    without [content] and [position], raise their [ValueError] and leave the
    list of requests sent as it was. *)
Theorem notes_validate_before_any_request
    (content : string) (position : option dict) (draft_id : option Z)
    (note_id : Z) sent :
  create_note base token remote content None None position draft_id sent
  = (Raise (ValueError "Either story_id or group_id must be provided"), sent)
  /\ update_note base token remote note_id None None sent
     = (Raise (ValueError "At least one of content or position must be provided"), sent).
Proof.
  split; reflexivity.
Qed.

(** C10.  [create_note] tests the truth value of [story_id] and [group_id]:
    an explicit id of 0 counts as missing, so the call raises the same
    [ValueError] and sends nothing. *)
Theorem create_note_rejects_zero_ids
    (content : string) (position : option dict) (draft_id : option Z) sent :
  create_note base token remote content (Some 0) None position draft_id sent
  = (Raise (ValueError "Either story_id or group_id must be provided"), sent)
  /\ create_note base token remote content None (Some 0) position draft_id sent
     = (Raise (ValueError "Either story_id or group_id must be provided"), sent)
  /\ create_note base token remote content (Some 0) (Some 0) position draft_id sent
     = (Raise (ValueError "Either story_id or group_id must be provided"), sent).
Proof.
  repeat split; reflexivity.
Qed.

End Mapping.

(** ** Action linking *)

Lemma py_eq_int_refl (n : Z) : py_eq_int n (PInt n) = true.
Proof.
  apply Z.eqb_refl.
Qed.

Lemma linked_contains (n : Z) (l : list pyval) :
  existsb (py_eq_int n) (linked n l) = true.
Proof.
  unfold linked. destruct (existsb (py_eq_int n) l) eqn:E; [exact E|].
  rewrite existsb_app. cbn [existsb]. rewrite py_eq_int_refl.
  now rewrite orb_true_r.
Qed.

(** Writing back is idempotent on the list. *)
Lemma linked_idempotent (n : Z) (l : list pyval) :
  linked n (linked n l) = linked n l.
Proof.
  unfold linked at 1. now rewrite linked_contains.
Qed.

Lemma occurrences_absent (n : Z) (l : list pyval) :
  existsb (py_eq_int n) l = false -> occurrences n l = 0%nat.
Proof.
  unfold occurrences. induction l as [|x l IH]; simpl; [reflexivity|].
  intros H. apply orb_false_iff in H as [Hx Hl].
  rewrite Hx. auto.
Qed.

Lemma occurrences_present (n : Z) (l : list pyval) :
  existsb (py_eq_int n) l = true -> (1 <= occurrences n l)%nat.
Proof.
  unfold occurrences. induction l as [|x l IH]; simpl; [discriminate|].
  destruct (py_eq_int n x); simpl; intros H; [lia | auto].
Qed.

Lemma occurrences_app (n : Z) (l l' : list pyval) :
  occurrences n (l ++ l') = (occurrences n l + occurrences n l')%nat.
Proof.
  unfold occurrences. now rewrite filter_app, length_app.
Qed.

Lemma occurrences_linked (n : Z) (l : list pyval) :
  (occurrences n l <= 1)%nat -> occurrences n (linked n l) = 1%nat.
Proof.
  intros Hle. unfold linked.
  destruct (existsb (py_eq_int n) l) eqn:E.
  - apply occurrences_present in E. lia.
  - rewrite occurrences_app, (occurrences_absent _ _ E).
    unfold occurrences. cbn [filter]. now rewrite py_eq_int_refl.
Qed.

Section Linking.

Variables base token : string.
Variable remote : list request -> request -> reply.

(** One run: the target is fetched, then its sources are written back with
    the source id appended unless it is there already. *)
Lemma connect_actions_requests
    story_id source target source_output draft_id sent fetched l :
  answers remote sent (fetch_target_request base token target) fetched ->
  py_get fetched "sources" (PList []) = Ok (PList l) ->
  snd (connect_actions base token remote story_id source target
         source_output draft_id sent)
  = (sent ++ [fetch_target_request base token target;
              write_sources_request base token target
                (PList (linked source l)) draft_id])%list.
Proof.
  intros Hfetch Hsources. unfold connect_actions.
  rewrite (bind_ok _ _ _ _ _ (make_request_answers _ _ _ _ _ _ _ _ _ Hfetch)).
  rewrite bind_lift_ok with (a := PList l) by exact Hsources.
  rewrite bind_lift_ok with (a := existsb (py_eq_int source) l) by reflexivity.
  unfold linked.
  destruct (existsb (py_eq_int source) l); cbn [negb].
  - unfold bind at 1. unfold ret at 1.
    rewrite make_request_sent, <- app_assoc. reflexivity.
  - rewrite bind_lift_ok with (a := PList (l ++ [PInt source])) by reflexivity.
    rewrite make_request_sent, <- app_assoc. reflexivity.
Qed.

(** Two runs in a row against a remote that shows what was written. *)
Lemma connect_actions_twice
    story_id source target source_output draft_id sent fetched l fetched' :
  answers remote sent (fetch_target_request base token target) fetched ->
  py_get fetched "sources" (PList []) = Ok (PList l) ->
  (occurrences source l <= 1)%nat ->
  answers remote
    (sent ++ [fetch_target_request base token target;
              write_sources_request base token target
                (PList (linked source l)) draft_id])
    (fetch_target_request base token target) fetched' ->
  py_get fetched' "sources" (PList []) = Ok (PList (linked source l)) ->
  snd (connect_actions base token remote story_id source target
         source_output draft_id sent)
  = (sent ++ [fetch_target_request base token target;
              write_sources_request base token target
                (PList (linked source l)) draft_id])%list
  /\ snd (connect_actions base token remote story_id source target
            source_output draft_id
            (snd (connect_actions base token remote story_id source target
                    source_output draft_id sent)))
     = (sent ++ [fetch_target_request base token target;
                 write_sources_request base token target
                   (PList (linked source l)) draft_id;
                 fetch_target_request base token target;
                 write_sources_request base token target
                   (PList (linked source l)) draft_id])%list
  /\ occurrences source (linked source l) = 1%nat.
Proof.
  intros Hfetch Hsources Hle Hfetch' Hsources'.
  pose proof (connect_actions_requests story_id source target source_output
                draft_id sent fetched l Hfetch Hsources) as Hone.
  split; [exact Hone|]. split; [|now apply occurrences_linked].
  rewrite Hone.
  rewrite (connect_actions_requests story_id source target source_output
             draft_id _ fetched' (linked source l) Hfetch' Hsources').
  rewrite linked_idempotent, <- app_assoc. reflexivity.
Qed.

Lemma write_sources_body (sources : pyval) (draft_id : option Z) :
  set_if_truthy draft_id "draft_id" PInt [("source_ids", sources)]
  = ([("source_ids", sources)] ++ field "draft_id" PInt (if_truthy draft_id))%list.
Proof.
  destruct draft_id as [n|]; cbn [set_if_truthy if_truthy]; [|reflexivity].
  now destruct (truthy n).
Qed.

(** C4, amended.  When the fetched target holds the source id at most once,
    one run of [connect_actions] sends a fetch and then a PUT whose JSON
    body holds, under [source_ids], a list with the source id exactly once
    (followed by [draft_id] when that is non-zero); and when the remote then
    shows the list just written, a second run with the same ids sends a PUT
    with that same body again. *)
Theorem connect_actions_links_once
    story_id source target source_output draft_id sent fetched l fetched' :
  answers remote sent (fetch_target_request base token target) fetched ->
  py_get fetched "sources" (PList []) = Ok (PList l) ->
  (occurrences source l <= 1)%nat ->
  answers remote
    (sent ++ [fetch_target_request base token target;
              write_sources_request base token target
                (PList (linked source l)) draft_id])
    (fetch_target_request base token target) fetched' ->
  py_get fetched' "sources" (PList []) = Ok (PList (linked source l)) ->
  exists fetch write fetch' write' written,
    snd (connect_actions base token remote story_id source target
           source_output draft_id sent)
    = (sent ++ [fetch; write])%list
    /\ snd (connect_actions base token remote story_id source target
              source_output draft_id
              (snd (connect_actions base token remote story_id source target
                      source_output draft_id sent)))
       = (sent ++ [fetch; write; fetch'; write'])%list
    /\ method fetch = "GET" /\ json fetch = None
    /\ method fetch' = "GET" /\ json fetch' = None
    /\ method write = "PUT"
    /\ url write = request_url base ("actions/" ++ str_of_int target)
    /\ json write = Some ([("source_ids", PList written)]
                          ++ field "draft_id" PInt (if_truthy draft_id))%list
    /\ method write' = "PUT"
    /\ url write' = url write
    /\ json write' = json write
    /\ occurrences source written = 1%nat.
Proof.
  intros Hfetch Hsources Hle Hfetch' Hsources'.
  destruct (connect_actions_twice story_id source target source_output draft_id
              sent fetched l fetched' Hfetch Hsources Hle Hfetch' Hsources')
    as (Hone & Htwo & Hocc).
  exists (fetch_target_request base token target),
         (write_sources_request base token target (PList (linked source l)) draft_id),
         (fetch_target_request base token target),
         (write_sources_request base token target (PList (linked source l)) draft_id),
         (linked source l).
  split; [exact Hone|]. split; [exact Htwo|].
  do 6 (split; [reflexivity|]).
  split; [cbn [write_sources_request build_request json]; now rewrite write_sources_body|].
  repeat split. exact Hocc.
Qed.

End Linking.

(** ** The target URL *)

Lemma append_empty_r (s : string) : s ++ "" = s.
Proof.
  induction s as [|a s IH]; simpl; congruence.
Qed.

Lemma append_assoc (s t u : string) : (s ++ t) ++ u = s ++ t ++ u.
Proof.
  induction s as [|a s IH]; simpl; congruence.
Qed.

Lemma length_append (s t : string) :
  String.length (s ++ t) = (String.length s + String.length t)%nat.
Proof.
  induction s as [|a s IH]; simpl; congruence.
Qed.

Lemma length_slashes (n : nat) : String.length (slashes n) = n.
Proof.
  induction n as [|n IH]; simpl; congruence.
Qed.

Lemma slashes_snoc (n : nat) : slashes (S n) = slashes n ++ "/".
Proof.
  induction n as [|n IH]; [reflexivity|].
  cbn [slashes append] in *. now rewrite <- IH.
Qed.

(** [lstrip] removes a run of leading slashes and stops at the first other
    character. *)
Lemma lstrip_slashes (s : string) :
  exists m, s = slashes m ++ lstrip "/" s /\ starts_with "/" (lstrip "/" s) = false.
Proof.
  induction s as [|a s (m & Hs & Hstart)].
  - exists 0%nat. split; reflexivity.
  - cbn [lstrip]. destruct (Ascii.eqb a "/") eqn:E.
    + apply Ascii.eqb_eq in E. subst a.
      exists (S m). split; [|exact Hstart].
      cbn [slashes append]. now rewrite <- Hs.
    + exists 0%nat. split; [reflexivity|exact E].
Qed.

(** [rstrip] removes a run of trailing slashes and stops at the last other
    character. *)
Lemma rstrip_slashes (s : string) :
  exists n, s = rstrip "/" s ++ slashes n /\ ends_with "/" (rstrip "/" s) = false.
Proof.
  induction s as [|a s (n & Hs & Hend)].
  - exists 0%nat. split; reflexivity.
  - cbn [rstrip]. destruct (rstrip "/" s) as [|b r] eqn:R.
    + destruct (Ascii.eqb a "/") eqn:E.
      * apply Ascii.eqb_eq in E. subst a.
        exists (S n). split; [|reflexivity].
        cbn [slashes append]. now rewrite Hs at 1.
      * exists n. split; [|cbn [ends_with]; exact E].
        cbn [append]. now rewrite Hs at 1.
    + exists n. split; [|exact Hend].
      cbn [append]. now rewrite Hs at 1.
Qed.

Lemma strip_one_trailing_keeps (b : string) :
  ends_with "/" b = false -> strip_one_trailing "/" b = b.
Proof.
  induction b as [|a b IH]; [reflexivity|].
  destruct b as [|a' b'].
  - cbn [ends_with strip_one_trailing]. now intros ->.
  - intros H. change (strip_one_trailing "/" (String a (String a' b')))
      with (String a (strip_one_trailing "/" (String a' b'))).
    rewrite IH; [reflexivity|exact H].
Qed.

Lemma strip_one_trailing_snoc (b : string) :
  strip_one_trailing "/" (b ++ "/") = b.
Proof.
  induction b as [|a b IH]; [reflexivity|].
  cbn [append]. destruct (b ++ "/") as [|a' r] eqn:E.
  - destruct b; discriminate.
  - change (strip_one_trailing "/" (String a (String a' r)))
      with (String a (strip_one_trailing "/" (String a' r))).
    now rewrite IH.
Qed.

Lemma strip_one_trailing_slashes (b : string) (n : nat) :
  ends_with "/" b = false ->
  strip_one_trailing "/" (b ++ slashes n) = b ++ slashes (Nat.pred n).
Proof.
  intros H. destruct n as [|n].
  - cbn [slashes Nat.pred]. rewrite append_empty_r.
    now apply strip_one_trailing_keeps.
  - rewrite slashes_snoc, <- append_assoc.
    apply strip_one_trailing_snoc.
Qed.

Lemma strip_one_leading_slashes (e : string) (m : nat) :
  starts_with "/" e = false ->
  strip_one_leading "/" (slashes m ++ e) = slashes (Nat.pred m) ++ e.
Proof.
  intros H. destruct m as [|m].
  - cbn [slashes append Nat.pred]. destruct e as [|a e]; [reflexivity|].
    cbn [starts_with] in H. cbn [strip_one_leading]. now rewrite H.
  - reflexivity.
Qed.

Lemma append_inj_l (b s t : string) : b ++ s = b ++ t -> s = t.
Proof.
  induction b as [|a b IH]; cbn [append]; [auto|].
  intros H. injection H as H. auto.
Qed.

(** Stripping one slash on each side gives the same URL exactly when there
    was at most one slash to strip on each side. *)
Lemma one_slash_suffices (base endpoint b e : string) (n m : nat) :
  base = b ++ slashes n ->
  ends_with "/" b = false ->
  endpoint = slashes m ++ e ->
  starts_with "/" e = false ->
  b ++ "/" ++ e = spec_request_url base endpoint <-> (n <= 1 /\ m <= 1)%nat.
Proof.
  intros -> Hend -> Hstart. unfold spec_request_url.
  rewrite strip_one_trailing_slashes, strip_one_leading_slashes by assumption.
  rewrite append_assoc. split.
  - intros H. apply append_inj_l in H.
    apply (f_equal String.length) in H.
    rewrite ?length_append, ?length_slashes in H. cbn [String.length] in H.
    lia.
  - intros [Hn Hm].
    replace (Nat.pred n) with 0%nat by lia.
    replace (Nat.pred m) with 0%nat by lia.
    reflexivity.
Qed.

(** C6, amended.  [make_request] strips every trailing slash of the base URL
    and every leading slash of the endpoint before joining the two with one
    ["/"]: with [n] trailing and [m] leading slashes, what is left of the
    base does not end in a slash, what is left of the endpoint does not
    start with one, and the result agrees with stripping exactly one slash
    on each side precisely when [n] and [m] are at most one. *)
Theorem request_url_strips_all_slashes
    (base token : string) (remote : list request -> request -> reply)
    (method endpoint : string) (data params : option dict) (sent : list request) :
  exists (b e : string) (n m : nat),
    base = b ++ slashes n
    /\ ends_with "/" b = false
    /\ endpoint = slashes m ++ e
    /\ starts_with "/" e = false
    /\ map url (snd (make_request base token remote method endpoint data params sent))
       = (map url sent ++ [(b ++ "/" ++ e)%string])%list
    /\ (request_url base endpoint = spec_request_url base endpoint
        <-> (n <= 1 /\ m <= 1)%nat).
Proof.
  destruct (rstrip_slashes base) as (n & Hb & Hend).
  destruct (lstrip_slashes endpoint) as (m & He & Hstart).
  exists (rstrip "/" base), (lstrip "/" endpoint), n, m.
  split; [exact Hb|]. split; [exact Hend|].
  split; [exact He|]. split; [exact Hstart|].
  split.
  - rewrite make_request_sent, map_app. reflexivity.
  - unfold request_url. now apply one_slash_suffices.
Qed.

(** ** Calls with the required arguments only *)

Lemma set_if_truthy_nonempty (s k : string) (f : string -> pyval) (d : dict) :
  s <> "" -> set_if_truthy (Some s) k f d = dict_set d k (f s).
Proof.
  intros Hs. unfold set_if_truthy. destruct s; [contradiction|reflexivity].
Qed.

Lemma set_if_truthy_nonzero (n : Z) (k : string) (f : Z -> pyval) (d : dict) :
  n <> 0 -> set_if_truthy (Some n) k f d = dict_set d k (f n).
Proof.
  intros Hn. unfold set_if_truthy.
  change (truthy n) with (negb (n =? 0)).
  destruct (Z.eqb_spec n 0); [contradiction|reflexivity].
Qed.

Lemma truthy_some_nonzero (n : Z) : n <> 0 -> truthy (Some n) = true.
Proof.
  intros Hn. change (truthy (Some n)) with (negb (n =? 0)).
  now destruct (Z.eqb_spec n 0).
Qed.

Create HintDb tools.

#[local] Hint Unfold sends list_stories get_story create_story update_story
  search_stories get_high_priority_stories get_disabled_stories
  get_story_actions create_action create_event_transform_action
  create_webhook_action create_email_action create_imap_action
  create_send_to_story_action create_trigger_action create_group_action
  create_llm_action update_action update_note list_notes : tools.

Ltac one_request_sent :=
  autounfold with tools; apply make_request_sends_as; reflexivity.

Section RequiredOnly.

Variables base token : string.
Variable remote : list request -> request -> reply.

(** Without [source_output] and [draft_id], [connect_actions] sends a fetch
    without fields and, when it gets that far, an update whose only field is
    [source_ids]. *)
Lemma connect_actions_fields story_id source target sent :
  exists fetch,
    carries fetch "GET" (request_url base ("actions/" ++ str_of_int target)) None None
    /\ (sends (connect_actions base token remote story_id source target None None)
          sent [fetch]
        \/ exists write written,
             sends (connect_actions base token remote story_id source target
                      None None) sent [fetch; write]
             /\ carries write "PUT"
                  (request_url base ("actions/" ++ str_of_int target))
                  (Some [("source_ids", PList written)]) None).
Proof.
  exists (fetch_target_request base token target).
  split; [repeat split|].
  unfold sends.
  destruct (connect_actions base token remote story_id source target None None sent)
    as [res log] eqn:Hrun.
  cbn [snd]. unfold connect_actions in Hrun. unfold bind at 1 in Hrun.
  pose proof (make_request_sent base token remote "GET"
                ("actions/" ++ str_of_int target) None None sent) as Hsent.
  destruct (make_request base token remote "GET"
              ("actions/" ++ str_of_int target) None None sent)
    as [[fetched|e] sent1]; cbn [snd] in Hsent; subst sent1;
    [|injection Hrun as <- <-; now left].
  destruct (py_get fetched "sources" (PList [])) as [current|e];
    [|injection Hrun as <- <-; now left].
  rewrite (bind_lift_ok (Ok current) _ _ current eq_refl) in Hrun.
  destruct current as [| | | |written|d];
    try (injection Hrun as <- <-; now left).
  rewrite (bind_lift_ok (Ok (existsb (py_eq_int source) written)) _ _
             (existsb (py_eq_int source) written) eq_refl) in Hrun.
  right.
  destruct (existsb (py_eq_int source) written); cbn [negb] in Hrun.
  - unfold bind at 1, ret at 1 in Hrun.
    apply (f_equal snd) in Hrun. rewrite make_request_sent in Hrun.
    cbn [snd] in Hrun. subst log.
    eexists. exists written. split; [now rewrite <- app_assoc|repeat split].
  - rewrite (bind_lift_ok (Ok (PList (written ++ [PInt source]))) _ _
               (PList (written ++ [PInt source])) eq_refl) in Hrun.
    apply (f_equal snd) in Hrun. rewrite make_request_sent in Hrun.
    cbn [snd] in Hrun. subst log.
    eexists. exists (written ++ [PInt source])%list.
    split; [now rewrite <- app_assoc|repeat split].
Qed.

(** C8, amended.  Called with its required arguments only, every tool with
    optional parameters sends a request whose JSON body and query hold
    exactly the fields listed here: the required ones, plus the defaults of
    the code, which are position [{x:100, y:100}] for actions, position
    [{x:0, y:0}] for notes, content type [text/html] for email actions, and
    also [per_page=20] for [search_stories], [get_high_priority_stories] and
    [get_disabled_stories] next to their fixed filter, mode ["message"] for
    event transform actions, port 993, ssl and folder ["INBOX"] for IMAP
    actions, and [json_mode=False] for LLM actions.  No field is null.
    [create_note] and [update_note] send nothing when they raise. *)
Theorem required_arguments_only
    (sent : list request)
    (story_id team_id action_id draft_id target_story_id group_story_id : Z)
    (note_id scope_id source target : Z)
    (query action_type name to subject body host username password : string)
    (prompt content : string) (rules : list pyval) :
  sends_request
    (list_stories base token remote None None None None None None None None) sent
    "GET" (request_url base "stories") None (Some [])
  /\ sends_request (get_story base token remote story_id None None) sent
       "GET" (request_url base ("stories/" ++ str_of_int story_id)) None (Some [])
  /\ sends_request
       (create_story base token remote team_id None None None None None None None)
       sent
       "POST" (request_url base "stories") (Some [("team_id", PInt team_id)]) None
  /\ sends_request (update_story base token remote story_id no_story_update) sent
       "PUT" (request_url base ("stories/" ++ str_of_int story_id)) (Some []) None
  /\ sends_request (search_stories base token remote query None per_page_default) sent
       "GET" (request_url base "stories") None
       (Some ([("per_page", PInt 20)]
              ++ field "search" PStr (if_truthy (Some query)))%list)
  /\ sends_request (get_high_priority_stories base token remote None per_page_default)
       sent
       "GET" (request_url base "stories") None
       (Some [("per_page", PInt 20); ("filter", PStr "HIGH_PRIORITY")])
  /\ sends_request (get_disabled_stories base token remote None per_page_default) sent
       "GET" (request_url base "stories") None
       (Some [("per_page", PInt 20); ("filter", PStr "DISABLED")])
  /\ sends_request (get_story_actions base token remote story_id None) sent
       "GET" (request_url base ("agents?story_id=" ++ str_of_int story_id))
       None None
  /\ sends_request
       (create_action base token remote story_id action_type name None None None)
       sent
       "POST" (request_url base "actions")
       (Some [("type", PStr action_type);
              ("name", PStr name);
              ("story_id", PStr (str_of_int story_id));
              ("position", PDict [("x", PInt 100); ("y", PInt 100)])]) None
  /\ sends_request
       (create_event_transform_action base token remote story_id name draft_id
          mode_default None None None) sent
       "POST" (request_url base "actions")
       (Some [("type", PStr "Agents::EventTransformationAgent");
              ("name", PStr name);
              ("story_id", PStr (str_of_int story_id));
              ("draft_id", PInt draft_id);
              ("options", PDict [("mode", PStr "message")]);
              ("position", PDict [("x", PInt 100); ("y", PInt 100)])]) None
  /\ sends_request
       (create_webhook_action base token remote story_id name draft_id None None)
       sent
       "POST" (request_url base "actions")
       (Some [("type", PStr "Agents::WebhookAgent");
              ("name", PStr name);
              ("story_id", PStr (str_of_int story_id));
              ("draft_id", PInt draft_id);
              ("position", PDict [("x", PInt 100); ("y", PInt 100)])]) None
  /\ sends_request
       (create_email_action base token remote story_id name draft_id
          to subject body None None None content_type_default None) sent
       "POST" (request_url base "actions")
       (Some [("type", PStr "Agents::EmailAgent");
              ("name", PStr name);
              ("story_id", PStr (str_of_int story_id));
              ("draft_id", PInt draft_id);
              ("options", PDict [("to", PStr to);
                                 ("subject", PStr subject);
                                 ("body", PStr body);
                                 ("content_type", PStr "text/html")]);
              ("position", PDict [("x", PInt 100); ("y", PInt 100)])]) None
  /\ sends_request
       (create_imap_action base token remote story_id name draft_id
          host username password port_default ssl_default folder_default
          None None) sent
       "POST" (request_url base "actions")
       (Some [("type", PStr "Agents::IMAPAgent");
              ("name", PStr name);
              ("story_id", PStr (str_of_int story_id));
              ("draft_id", PInt draft_id);
              ("options", PDict [("host", PStr host);
                                 ("username", PStr username);
                                 ("password", PStr password);
                                 ("port", PInt 993);
                                 ("ssl", PBool true);
                                 ("folder", PStr "INBOX")]);
              ("position", PDict [("x", PInt 100); ("y", PInt 100)])]) None
  /\ sends_request
       (create_send_to_story_action base token remote story_id name draft_id
          target_story_id None None) sent
       "POST" (request_url base "actions")
       (Some [("type", PStr "Agents::SendToStoryAgent");
              ("name", PStr name);
              ("story_id", PStr (str_of_int story_id));
              ("draft_id", PInt draft_id);
              ("options", PDict [("story_id", PInt target_story_id)]);
              ("position", PDict [("x", PInt 100); ("y", PInt 100)])]) None
  /\ sends_request
       (create_trigger_action base token remote story_id name draft_id
          rules None None) sent
       "POST" (request_url base "actions")
       (Some [("type", PStr "Agents::TriggerAgent");
              ("name", PStr name);
              ("story_id", PStr (str_of_int story_id));
              ("draft_id", PInt draft_id);
              ("options", PDict [("rules", PList rules)]);
              ("position", PDict [("x", PInt 100); ("y", PInt 100)])]) None
  /\ sends_request
       (create_group_action base token remote story_id name draft_id
          group_story_id None) sent
       "POST" (request_url base "actions")
       (Some [("type", PStr "Agents::GroupAgent");
              ("name", PStr name);
              ("story_id", PStr (str_of_int story_id));
              ("draft_id", PInt draft_id);
              ("options", PDict [("group_story_id", PInt group_story_id)]);
              ("position", PDict [("x", PInt 100); ("y", PInt 100)])]) None
  /\ sends_request
       (create_llm_action base token remote story_id name prompt draft_id
          json_mode_default None) sent
       "POST" (request_url base "actions")
       (Some [("type", PStr "Agents::LLMAgent");
              ("name", PStr name);
              ("story_id", PStr (str_of_int story_id));
              ("draft_id", PInt draft_id);
              ("options", PDict [("prompt", PStr prompt);
                                 ("json_mode", PBool false)]);
              ("position", PDict [("x", PInt 100); ("y", PInt 100)])]) None
  /\ sends_request
       (update_action base token remote story_id action_id None None None None) sent
       "PUT" (request_url base ("actions/" ++ str_of_int action_id)) (Some []) None
  /\ (exists fetch,
        carries fetch "GET" (request_url base ("actions/" ++ str_of_int target))
          None None
        /\ (sends (connect_actions base token remote story_id source target None None)
              sent [fetch]
            \/ exists write written,
                 sends (connect_actions base token remote story_id source target
                          None None) sent [fetch; write]
                 /\ carries write "PUT"
                      (request_url base ("actions/" ++ str_of_int target))
                      (Some [("source_ids", PList written)]) None))
  /\ sends (create_note base token remote content None None None None) sent []
  /\ (exists new,
        sends (create_note base token remote content (Some scope_id) None None None)
          sent new
        /\ List.length new = (if scope_id =? 0 then 0%nat else 1%nat)
        /\ Forall (fun req =>
                     carries req "POST" (request_url base "notes")
                       (Some [("content", PStr content);
                              ("story_id", PInt scope_id);
                              ("position", PDict [("x", PInt 0); ("y", PInt 0)])])
                       None) new)
  /\ (exists new,
        sends (create_note base token remote content None (Some scope_id) None None)
          sent new
        /\ List.length new = (if scope_id =? 0 then 0%nat else 1%nat)
        /\ Forall (fun req =>
                     carries req "POST" (request_url base "notes")
                       (Some [("content", PStr content);
                              ("group_id", PInt scope_id);
                              ("position", PDict [("x", PInt 0); ("y", PInt 0)])])
                       None) new)
  /\ sends (update_note base token remote note_id None None) sent []
  /\ sends_request (update_note base token remote note_id (Some content) None) sent
       "PUT" (request_url base ("notes/" ++ str_of_int note_id))
       (Some [("content", PStr content)]) None
  /\ sends_request
       (list_notes base token remote None None None None None None None) sent
       "GET" (request_url base "notes") None None.
Proof.
  repeat match goal with |- _ /\ _ => split end;
    try solve [one_request_sent].
  - autounfold with tools. apply make_request_sends_as; [reflexivity|].
    now destruct query.
  - apply connect_actions_fields.
  - unfold sends. cbn. now rewrite app_nil_r.
  - destruct (Z.eqb_spec scope_id 0) as [->|Hscope].
    + exists []. repeat split; [|constructor].
      unfold sends. cbn. now rewrite app_nil_r.
    + eexists. split.
      * unfold sends, create_note.
        change (truthy (@None Z)) with false.
        rewrite truthy_some_nonzero by exact Hscope. cbn [negb andb].
        rewrite make_request_sent.
        rewrite set_if_truthy_nonzero by exact Hscope. reflexivity.
      * split; [reflexivity|].
        constructor; [repeat split|constructor].
  - destruct (Z.eqb_spec scope_id 0) as [->|Hscope].
    + exists []. repeat split; [|constructor].
      unfold sends. cbn. now rewrite app_nil_r.
    + eexists. split.
      * unfold sends, create_note.
        change (truthy (@None Z)) with false.
        rewrite truthy_some_nonzero by exact Hscope. cbn [negb andb].
        rewrite make_request_sent.
        rewrite set_if_truthy_nonzero by exact Hscope. reflexivity.
      * split; [reflexivity|].
        constructor; [repeat split|constructor].
  - unfold sends. cbn. now rewrite app_nil_r.
Qed.

End RequiredOnly.

(** ** The statements at concrete inputs *)

(** With [["drafts": []]] as the listing of story 42, draft creation stops
    after two requests. *)
Lemma create_story_draft_no_draft_run :
  dict_get [("drafts", PList [])] "drafts" = Some (PList [])
  /\ create_story_draft "https://tenant.tines.com/api/v1" "token"
       (scripted [ok (PDict [("id", PInt 42)]); ok (PDict [("drafts", PList [])])])
       42 []
     = (Raise (ValueError "No draft was created"),
        [add_tag_request "https://tenant.tines.com/api/v1" "token" 42;
         list_drafts_request "https://tenant.tines.com/api/v1" "token" 42]).
Proof.
  split; [reflexivity|].
  apply (create_story_draft_no_draft "https://tenant.tines.com/api/v1" "token"
           (scripted [ok (PDict [("id", PInt 42)]); ok (PDict [("drafts", PList [])])])
           42 [] (PDict [("id", PInt 42)]) [("drafts", PList [])]).
  - eexists. repeat split; reflexivity.
  - eexists. repeat split; reflexivity.
  - reflexivity.
Defined.

(** With draft 77 listed first for story 42, the body of the tag removal
    holds [draft_id = 77] and draft 77 is returned. *)
Lemma create_story_draft_scoped_removal_run :
  dict_get [("id", PInt 77); ("name", PStr "Draft 2")] "id" = Some (PInt 77)
  /\ exists add listed removal,
       create_story_draft "https://tenant.tines.com/api/v1" "token"
         (scripted
            [ok (PDict [("id", PInt 42)]);
             ok (PDict [("drafts",
                         PList [PDict [("id", PInt 77); ("name", PStr "Draft 2")];
                                PDict [("id", PInt 76); ("name", PStr "Draft 1")]])]);
             ok (PDict [("id", PInt 42)])])
         42 []
       = (Ok (PDict [("id", PInt 77); ("name", PStr "Draft 2")]),
          [add; listed; removal])
       /\ url removal = "https://tenant.tines.com/api/v1/stories/42"
       /\ json removal = Some [("remove_tag_names", PList [PStr "draft-creation"]);
                               ("draft_id", PInt 77)].
Proof.
  split; [reflexivity|].
  destruct (create_story_draft_scoped_removal "https://tenant.tines.com/api/v1" "token"
           (scripted
              [ok (PDict [("id", PInt 42)]);
               ok (PDict [("drafts",
                           PList [PDict [("id", PInt 77); ("name", PStr "Draft 2")];
                                  PDict [("id", PInt 76); ("name", PStr "Draft 1")]])]);
               ok (PDict [("id", PInt 42)])])
           42 [] (PDict [("id", PInt 42)])
           [("drafts",
             PList [PDict [("id", PInt 77); ("name", PStr "Draft 2")];
                    PDict [("id", PInt 76); ("name", PStr "Draft 1")]])]
           [("id", PInt 77); ("name", PStr "Draft 2")]
           [PDict [("id", PInt 76); ("name", PStr "Draft 1")]]
           (PInt 77) (PDict [("id", PInt 42)]))
    as (add & listed & removal & Hrun & _ & _ & _ & _ & _ & _ & _ & Hurl & Hjson & _).
  - eexists. repeat split; reflexivity.
  - eexists. repeat split; reflexivity.
  - reflexivity.
  - reflexivity.
  - eexists. repeat split; reflexivity.
  - exists add, listed, removal. split; [exact Hrun|]. split; [exact Hurl|exact Hjson].
Defined.

(** A target whose fetched sources hold the source id twice: the list
    written back still holds it twice. *)
Lemma connect_actions_keeps_duplicates :
  snd (connect_actions "https://tenant.tines.com/api/v1" "token"
         (always (ok (PDict [("id", PInt 9); ("sources", PList [PInt 7; PInt 7])])))
         1 7 9 None None [])
  = [fetch_target_request "https://tenant.tines.com/api/v1" "token" 9;
     write_sources_request "https://tenant.tines.com/api/v1" "token" 9
       (PList [PInt 7; PInt 7]) None]
  /\ occurrences 7 [PInt 7; PInt 7] = 2%nat.
Proof.
  split; reflexivity.
Qed.

(** Against a remote that stores what is written, linking 7 into a target
    with sources [[3]] twice sends the body [{"source_ids": [3, 7]}] both
    times. *)
Lemma connect_actions_links_once_run :
  (occurrences 7 [PInt 3] <= 1)%nat
  /\ exists fetch write fetch' write',
       snd (connect_actions "https://tenant.tines.com/api/v1" "token"
              (action_store [PInt 3]) 1 7 9 None None
              (snd (connect_actions "https://tenant.tines.com/api/v1" "token"
                      (action_store [PInt 3]) 1 7 9 None None [])))
       = [fetch; write; fetch'; write']
       /\ json write = Some [("source_ids", PList [PInt 3; PInt 7])]
       /\ json write' = Some [("source_ids", PList [PInt 3; PInt 7])].
Proof.
  split; [vm_compute; lia|].
  destruct (connect_actions_links_once "https://tenant.tines.com/api/v1" "token"
           (action_store [PInt 3]) 1 7 9 None None []
           (PDict [("id", PInt 9); ("sources", PList [PInt 3])]) [PInt 3]
           (PDict [("id", PInt 9); ("sources", PList [PInt 3; PInt 7])]))
    as (fetch & write & fetch' & write' & written & Hone & Htwo & Hrest).
  - eexists. repeat split; reflexivity.
  - reflexivity.
  - vm_compute. lia.
  - eexists. repeat split; reflexivity.
  - reflexivity.
  - exists fetch, write, fetch', write'. split; [exact Htwo|].
    assert (Hwrite : write
              = write_sources_request "https://tenant.tines.com/api/v1" "token" 9
                  (PList [PInt 3; PInt 7]) None).
    { apply (f_equal (fun l => nth 1 l write)) in Hone. cbn in Hone.
      symmetry. exact Hone. }
    destruct Hrest as (_ & _ & _ & _ & _ & _ & _ & _ & _ & Hsame & _).
    rewrite Hsame, Hwrite. split; reflexivity.
Defined.

(** A base URL that ends in two slashes loses both, where the rule of
    stripping exactly one would keep the second. *)
Lemma request_url_two_trailing_slashes :
  map url (snd (make_request "https://tenant.tines.com/api/v1//" "token"
                  (always NoResponse) "GET" "stories" None None []))
  = ["https://tenant.tines.com/api/v1/stories"]
  /\ spec_request_url "https://tenant.tines.com/api/v1//" "stories"
     = "https://tenant.tines.com/api/v1//stories"
  /\ request_url "https://tenant.tines.com/api/v1//" "stories"
     <> spec_request_url "https://tenant.tines.com/api/v1//" "stories".
Proof.
  split; [reflexivity|]. split; [reflexivity|].
  vm_compute. discriminate.
Qed.

(** [search_stories("x")] sends [per_page], which is neither a required
    field nor one of [position] and [content_type]. *)
Lemma search_stories_sends_per_page :
  snd (search_stories "https://tenant.tines.com/api/v1" "token"
         (always NoResponse) "x" None per_page_default [])
  = [build_request "https://tenant.tines.com/api/v1" "token" "GET" "stories" None
       (Some [("per_page", PInt 20); ("search", PStr "x")])]
  /\ ~ Forall (fun req => incl (fields_of req) ["search"; "position"; "content_type"])
         (snd (search_stories "https://tenant.tines.com/api/v1" "token"
                 (always NoResponse) "x" None per_page_default [])).
Proof.
  split; [reflexivity|].
  intros H. apply Forall_inv in H.
  specialize (H "per_page" (or_introl eq_refl)).
  cbn [In] in H. intuition discriminate.
Qed.

(** ** Further properties of the request executor *)

Lemma raise_for_status_error (r : response) :
  error_status (status_code r) ->
  raise_for_status r = Some (HTTPError (status_code r)).
Proof.
  unfold error_status, raise_for_status. intros [Hlo Hhi].
  destruct (status_code r <? 500) eqn:E.
  - replace (400 <=? status_code r) with true by (symmetry; now apply Z.leb_le).
    reflexivity.
  - rewrite andb_false_r.
    replace (500 <=? status_code r) with true
      by (symmetry; apply Z.leb_le; apply Z.ltb_ge in E; lia).
    replace (status_code r <? 600) with true by (symmetry; now apply Z.ltb_lt).
    reflexivity.
Qed.

Lemma raise_for_status_none (r : response) :
  raise_for_status r = None -> ~ error_status (status_code r).
Proof.
  intros Hnone Herr. apply raise_for_status_error in Herr. congruence.
Qed.

Section Executor.

Variables base token : string.
Variable remote : list request -> request -> reply.

(** An error status decides the outcome whatever the body holds: any answer
    with a status from 400 to 599 makes [make_request] raise [HTTPError]
    with that status, after the one request. *)
Theorem make_request_error_status method endpoint data params sent r :
  remote sent (build_request base token method endpoint data params) = Response r ->
  error_status (status_code r) ->
  make_request base token remote method endpoint data params sent
  = (Raise (HTTPError (status_code r)),
     (sent ++ [build_request base token method endpoint data params])%list).
Proof.
  intros Hr Herr. unfold make_request.
  now rewrite Hr, (raise_for_status_error r Herr).
Qed.

(** [make_request] returns a value only when the remote answered, with a
    status outside 400..599 and a JSON body; the value is that body and the
    request is the one added to those sent. *)
Theorem make_request_returns_only_json method endpoint data params sent v sent' :
  make_request base token remote method endpoint data params sent = (Ok v, sent') ->
  sent' = (sent ++ [build_request base token method endpoint data params])%list
  /\ exists r,
       remote sent (build_request base token method endpoint data params) = Response r
       /\ ~ error_status (status_code r)
       /\ content r = JsonBody v.
Proof.
  unfold make_request.
  destruct (remote sent _) as [|r] eqn:Hr; [discriminate|].
  destruct (raise_for_status r) eqn:Hs; [discriminate|].
  unfold response_json. destruct (content r) eqn:Hc; try discriminate.
  intros H. injection H as <- <-. split; [reflexivity|].
  exists r. repeat split; auto using raise_for_status_none.
Qed.

Lemma make_request_ok_answers method endpoint data params sent v sent' :
  make_request base token remote method endpoint data params sent = (Ok v, sent') ->
  answers remote sent (build_request base token method endpoint data params) v.
Proof.
  unfold make_request, answers.
  destruct (remote sent _) as [|r] eqn:Hr; [discriminate|].
  destruct (raise_for_status r) eqn:Hs; [discriminate|].
  unfold response_json. destruct (content r) eqn:Hc; try discriminate.
  intros H. injection H as <- <-. exists r. auto.
Qed.

(** The outcome of a request together with the list it leaves behind. *)
Lemma make_request_run method endpoint data params sent :
  make_request base token remote method endpoint data params sent
  = (fst (make_request base token remote method endpoint data params sent),
     (sent ++ [build_request base token method endpoint data params])%list).
Proof.
  rewrite <- (make_request_sent base token remote method endpoint data params sent).
  apply surjective_pairing.
Qed.

End Executor.

(** ** What every tool does to the list of requests *)

Lemma build_request_authenticated (base token method endpoint : string)
    (data params : option dict) :
  authenticated base token (build_request base token method endpoint data params).
Proof.
  split; [reflexivity|]. now exists endpoint.
Qed.

Section Adds.

Variables base token : string.

Lemma adds_ret {A : Type} (a : A) : adds_at_most base token 0 (ret a).
Proof.
  intros sent. exists []. rewrite app_nil_r. repeat split; auto.
Qed.

Lemma adds_raise {A : Type} (e : exn) : adds_at_most base token 0 (@raise A e).
Proof.
  intros sent. exists []. rewrite app_nil_r. repeat split; auto.
Qed.

Lemma adds_lift {A : Type} (r : result A) : adds_at_most base token 0 (lift r).
Proof.
  destruct r; [apply adds_ret|apply adds_raise].
Qed.

Lemma adds_weaken {A : Type} (n n' : nat) (m : M A) :
  (n <= n')%nat -> adds_at_most base token n m -> adds_at_most base token n' m.
Proof.
  intros Hle Hm sent. destruct (Hm sent) as (new & Hs & Hlen & Hall).
  exists new. repeat split; auto. lia.
Qed.

Lemma adds_bind {A B : Type} (n k : nat) (m : M A) (f : A -> M B) :
  adds_at_most base token n m ->
  (forall a, adds_at_most base token k (f a)) ->
  adds_at_most base token (n + k) (bind m f).
Proof.
  intros Hm Hf sent. destruct (Hm sent) as (new & Hs & Hlen & Hall).
  unfold bind. destruct (m sent) as [[a|e] sent1]; cbn [snd] in Hs; subst sent1.
  - destruct (Hf a (sent ++ new)%list) as (new' & Hs' & Hlen' & Hall').
    exists (new ++ new')%list. rewrite Hs', app_assoc.
    repeat split; [rewrite length_app; lia|now apply Forall_app].
  - exists new. repeat split; auto. lia.
Qed.

Lemma adds_make_request remote method endpoint data params :
  adds_at_most base token 1
    (make_request base token remote method endpoint data params).
Proof.
  intros sent. eexists. rewrite make_request_sent.
  repeat split; [reflexivity|].
  constructor; [apply build_request_authenticated|constructor].
Qed.

Lemma adds_try_log_reraise {A : Type} (n : nat) (m : M A) :
  adds_at_most base token n m -> adds_at_most base token n (try_log_reraise m).
Proof.
  intros Hm sent. rewrite try_log_reraise_id. apply Hm.
Qed.

Lemma adds_try_except {A : Type} (n : nat) (m : M A) (h : exn -> M A) :
  adds_at_most base token n m ->
  (forall e, adds_at_most base token 0 (h e)) ->
  adds_at_most base token n (try_except m h).
Proof.
  intros Hm Hh sent. destruct (Hm sent) as (new & Hs & Hlen & Hall).
  unfold try_except. destruct (m sent) as [[a|e] sent1]; cbn [snd] in Hs; subst sent1.
  - exists new. auto.
  - destruct (Hh e (sent ++ new)%list) as (new' & Hs' & Hlen' & Hall').
    exists (new ++ new')%list. rewrite Hs', app_assoc.
    repeat split; [rewrite length_app; lia|now apply Forall_app].
Qed.

Variable remote : list request -> request -> reply.

(** Whatever the remote answers and whatever the arguments, the tools that
    do more than pass one request on keep the requests already sent and add
    only authenticated requests under the base URL: at most two for
    [connect_actions], three for [create_story_draft], one for
    [create_note], [update_note], [delete_note] and [debug_endpoint]. *)
Theorem tools_add_authenticated_requests :
  (forall story_id source target source_output draft_id,
      adds_at_most base token 2
        (connect_actions base token remote story_id source target
           source_output draft_id))
  /\ (forall story_id,
         adds_at_most base token 3 (create_story_draft base token remote story_id))
  /\ (forall content story_id group_id position draft_id,
         adds_at_most base token 1
           (create_note base token remote content story_id group_id position draft_id))
  /\ (forall note_id content position,
         adds_at_most base token 1
           (update_note base token remote note_id content position))
  /\ (forall note_id,
         adds_at_most base token 1 (delete_note base token remote note_id))
  /\ (forall str_of_exn endpoint method data,
         adds_at_most base token 1
           (debug_endpoint str_of_exn base token remote endpoint method data)).
Proof.
  repeat match goal with |- _ /\ _ => split end; intros.
  - unfold connect_actions.
    apply (adds_bind 1 1); [apply adds_make_request|]. intros target_action.
    apply (adds_bind 0 1); [apply adds_lift|]. intros current.
    apply (adds_bind 0 1); [apply adds_lift|]. intros found.
    apply (adds_bind 0 1); [|intros; apply adds_make_request].
    destruct (negb found); [apply adds_lift|apply adds_ret].
  - unfold create_story_draft. apply adds_try_log_reraise.
    apply (adds_bind 1 2); [apply adds_make_request|]. intros _.
    apply (adds_bind 1 1); [apply adds_make_request|]. intros drafts.
    apply (adds_bind 0 1); [apply adds_lift|]. intros listed.
    destruct (truthy listed).
    + apply (adds_bind 0 1); [apply adds_lift|]. intros all_drafts.
      apply (adds_bind 0 1); [apply adds_lift|]. intros latest.
      apply (adds_bind 0 1); [apply adds_lift|]. intros latest_id.
      apply (adds_bind 1 0); [apply adds_make_request|].
      intros _. apply adds_ret.
    + apply (adds_weaken 0 1); [lia|apply adds_raise].
  - unfold create_note.
    destruct (negb (truthy story_id) && negb (truthy group_id)).
    + apply (adds_weaken 0 1); [lia|apply adds_raise].
    + apply adds_make_request.
  - unfold update_note.
    destruct (negb (truthy _)).
    + apply (adds_weaken 0 1); [lia|apply adds_raise].
    + apply adds_make_request.
  - unfold delete_note.
    apply (adds_bind 1 0); [apply adds_make_request|]. intros _. apply adds_ret.
  - unfold debug_endpoint.
    apply adds_try_except; [|intros; apply adds_ret].
    apply (adds_bind 1 0); [apply adds_make_request|]. intros; apply adds_ret.
Qed.

End Adds.

(** ** Draft creation: where it stops *)

Lemma py_index_first (x : pyval) (l : list pyval) : py_index (PList (x :: l)) 0 = Ok x.
Proof.
  reflexivity.
Qed.

Lemma py_index_0_dict (x : pyval) (draft : dict) :
  py_index x 0 = Ok (PDict draft) -> exists others, x = PList (PDict draft :: others).
Proof.
  destruct x as [| | |s|l|d]; try discriminate.
  - unfold py_index. destruct (index_of (String.length s) 0); [|discriminate].
    destruct (String.get n s); discriminate.
  - destruct l as [|y l]; [discriminate|].
    rewrite py_index_first. intros H. injection H as ->. now exists l.
Qed.

Section DraftSteps.

Variables base token : string.
Variable remote : list request -> request -> reply.

(** When the add-tag update fails, with whatever exception, draft creation
    raises that exception after this one request: nothing is listed and
    nothing is removed. *)
Theorem create_story_draft_update_fails story_id sent e :
  fst (make_request base token remote "PUT" ("stories/" ++ str_of_int story_id)
         (Some [("add_tag_names", PList [PStr "draft-creation"])]) None sent)
  = Raise e ->
  create_story_draft base token remote story_id sent
  = (Raise e, (sent ++ [add_tag_request base token story_id])%list).
Proof.
  intros Hfail. unfold create_story_draft. rewrite try_log_reraise_id.
  unfold bind at 1. rewrite make_request_run, Hfail. reflexivity.
Qed.

(** When the first listed draft has no [id], draft creation raises
    [KeyError] after the update and the listing: the temporary tag has been
    added and no request removes it. *)
Theorem create_story_draft_draft_without_id
    story_id sent updated listing draft others :
  answers remote sent (add_tag_request base token story_id) updated ->
  answers remote (sent ++ [add_tag_request base token story_id])
    (list_drafts_request base token story_id) (PDict listing) ->
  dict_get listing "drafts" = Some (PList (PDict draft :: others)) ->
  dict_get draft "id" = None ->
  create_story_draft base token remote story_id sent
  = (Raise KeyError,
     (sent ++ [add_tag_request base token story_id;
               list_drafts_request base token story_id])%list).
Proof.
  intros Hput Hget Hdrafts Hid.
  unfold create_story_draft. rewrite try_log_reraise_id.
  rewrite (bind_ok _ _ _ _ _ (make_request_answers _ _ _ _ _ _ _ _ _ Hput)).
  unfold list_story_drafts.
  rewrite (bind_ok _ _ _ _ _ (make_request_answers _ _ _ _ _ _ _ _ _ Hget)).
  rewrite <- app_assoc. cbn [app]. fold (list_drafts_request base token story_id).
  rewrite bind_lift_ok with (a := PList (PDict draft :: others))
    by (cbn [py_get]; now rewrite Hdrafts).
  change (truthy (PList (PDict draft :: others))) with true. cbv iota.
  rewrite bind_lift_ok with (a := PList (PDict draft :: others))
    by (cbn [py_getitem]; now rewrite Hdrafts).
  rewrite bind_lift_ok with (a := PDict draft) by reflexivity.
  apply bind_lift_raise. cbn [py_getitem]. now rewrite Hid.
Qed.

(** When the tag removal fails, draft creation raises the exception of the
    removal instead of returning the draft it found; the three requests
    have been sent. *)
Theorem create_story_draft_removal_fails
    story_id sent updated listing draft others draft_id e :
  answers remote sent (add_tag_request base token story_id) updated ->
  answers remote (sent ++ [add_tag_request base token story_id])
    (list_drafts_request base token story_id) (PDict listing) ->
  dict_get listing "drafts" = Some (PList (PDict draft :: others)) ->
  dict_get draft "id" = Some draft_id ->
  fst (make_request base token remote "PUT" ("stories/" ++ str_of_int story_id)
         (Some [("remove_tag_names", PList [PStr "draft-creation"]);
                ("draft_id", draft_id)]) None
         (sent ++ [add_tag_request base token story_id;
                   list_drafts_request base token story_id])%list)
  = Raise e ->
  create_story_draft base token remote story_id sent
  = (Raise e,
     (sent ++ [add_tag_request base token story_id;
               list_drafts_request base token story_id;
               remove_tag_request base token story_id draft_id])%list).
Proof.
  intros Hput Hget Hdrafts Hid Hfail.
  unfold create_story_draft. rewrite try_log_reraise_id.
  rewrite (bind_ok _ _ _ _ _ (make_request_answers _ _ _ _ _ _ _ _ _ Hput)).
  unfold list_story_drafts.
  rewrite (bind_ok _ _ _ _ _ (make_request_answers _ _ _ _ _ _ _ _ _ Hget)).
  rewrite <- app_assoc. cbn [app]. fold (list_drafts_request base token story_id).
  rewrite bind_lift_ok with (a := PList (PDict draft :: others))
    by (cbn [py_get]; now rewrite Hdrafts).
  change (truthy (PList (PDict draft :: others))) with true. cbv iota.
  rewrite bind_lift_ok with (a := PList (PDict draft :: others))
    by (cbn [py_getitem]; now rewrite Hdrafts).
  rewrite bind_lift_ok with (a := PDict draft) by reflexivity.
  rewrite bind_lift_ok with (a := draft_id)
    by (cbn [py_getitem]; now rewrite Hid).
  cbv beta. unfold bind at 1. rewrite make_request_run, Hfail.
  rewrite <- app_assoc. reflexivity.
Qed.

(** A draft is returned only at the end of the whole sequence: when
    [create_story_draft] returns a value, the listing was answered with that
    value as its first draft, the value is a dict with an [id], and the
    third and last request sent is the PUT to the story whose JSON body
    holds [remove_tag_names] and this id as [draft_id]. *)
Theorem create_story_draft_returns_after_removal story_id sent result sent' :
  create_story_draft base token remote story_id sent = (Ok result, sent') ->
  exists listing others draft draft_id add listed removal,
    answers remote (sent ++ [add]) listed (PDict listing)
    /\ dict_get listing "drafts" = Some (PList (result :: others))
    /\ result = PDict draft
    /\ dict_get draft "id" = Some draft_id
    /\ sent' = (sent ++ [add; listed; removal])%list
    /\ method add = "PUT"
    /\ url add = request_url base ("stories/" ++ str_of_int story_id)
    /\ json add = Some [("add_tag_names", PList [PStr "draft-creation"])]
    /\ method listed = "GET"
    /\ url listed = request_url base ("stories/" ++ str_of_int story_id ++ "/drafts")
    /\ json listed = None
    /\ method removal = "PUT"
    /\ url removal = request_url base ("stories/" ++ str_of_int story_id)
    /\ json removal = Some [("remove_tag_names", PList [PStr "draft-creation"]);
                            ("draft_id", draft_id)]
    /\ params removal = None.
Proof.
  intros H. unfold create_story_draft in H. rewrite try_log_reraise_id in H.
  unfold bind at 1 in H. rewrite make_request_run in H.
  destruct (fst (make_request base token remote "PUT" _ _ None sent))
    as [updated|e]; [|discriminate].
  unfold list_story_drafts in H. unfold bind at 1 in H.
  destruct (make_request base token remote "GET" _ None None _)
    as [[drafts|e] sent2] eqn:Hget; [|discriminate].
  pose proof (make_request_ok_answers _ _ _ _ _ _ _ _ _ _ Hget) as Hlisted.
  apply (f_equal snd) in Hget. rewrite make_request_sent in Hget.
  cbn [snd] in Hget. rewrite <- Hget in H. clear Hget sent2.
  destruct drafts as [| | | | |listing]; try discriminate.
  unfold bind at 1 in H. cbn [lift py_get ret] in H.
  destruct (dict_get listing "drafts") as [all_drafts|] eqn:Hdrafts;
    [|discriminate].
  destruct (truthy all_drafts); [|discriminate].
  unfold bind at 1 in H. cbn [lift py_getitem] in H. rewrite Hdrafts in H.
  cbn [lift ret] in H. unfold bind at 1 in H.
  destruct (py_index all_drafts 0) as [latest|e] eqn:Hfirst;
    cbn [lift ret raise] in H; [|discriminate].
  unfold bind at 1 in H.
  destruct latest as [| | | | |draft]; try discriminate.
  cbn [lift py_getitem] in H.
  destruct (dict_get draft "id") as [draft_id|] eqn:Hid;
    cbn [lift ret raise] in H; [|discriminate].
  unfold bind at 1 in H. rewrite make_request_run in H.
  destruct (fst (make_request base token remote "PUT" _ _ None _))
    as [removed|e]; [|discriminate].
  unfold ret in H. injection H as <- <-.
  apply py_index_0_dict in Hfirst as [others ->].
  exists listing, others, draft, draft_id,
    (add_tag_request base token story_id),
    (list_drafts_request base token story_id),
    (remove_tag_request base token story_id draft_id).
  split; [exact Hlisted|].
  do 3 (split; [reflexivity || assumption|]).
  split; [now rewrite <- !app_assoc|].
  repeat split.
Qed.

End DraftSteps.

(** ** Action linking: failures and what is kept *)

Lemma linked_keeps (n : Z) (l : list pyval) :
  exists tail, linked n l = (l ++ tail)%list /\ (List.length tail <= 1)%nat.
Proof.
  unfold linked. destruct (existsb (py_eq_int n) l).
  - exists []. rewrite app_nil_r. split; [reflexivity|cbn; lia].
  - exists [PInt n]. split; [reflexivity|cbn; lia].
Qed.

Section LinkingSteps.

Variables base token : string.
Variable remote : list request -> request -> reply.

(** When fetching the target fails, [connect_actions] raises the exception
    of the fetch and sends no update. *)
Theorem connect_actions_fetch_fails
    story_id source target source_output draft_id sent e :
  fst (make_request base token remote "GET" ("actions/" ++ str_of_int target)
         None None sent) = Raise e ->
  connect_actions base token remote story_id source target source_output draft_id sent
  = (Raise e, (sent ++ [fetch_target_request base token target])%list).
Proof.
  intros Hfail. unfold connect_actions.
  unfold bind at 1. rewrite make_request_run, Hfail. reflexivity.
Qed.

(** [connect_actions] writes only when it read a list: when the fetched
    target is not a dict, or its [sources] is there but is not a list (a
    JSON null, for one), the call raises [TypeError] or [AttributeError]
    after the fetch and sends no update. *)
Theorem connect_actions_needs_source_list
    story_id source target source_output draft_id sent fetched :
  answers remote sent (fetch_target_request base token target) fetched ->
  (forall l, py_get fetched "sources" (PList []) <> Ok (PList l)) ->
  exists e,
    (e = TypeError \/ e = AttributeError)
    /\ connect_actions base token remote story_id source target
         source_output draft_id sent
       = (Raise e, (sent ++ [fetch_target_request base token target])%list).
Proof.
  intros Hfetch Hnot. unfold connect_actions.
  rewrite (bind_ok _ _ _ _ _ (make_request_answers _ _ _ _ _ _ _ _ _ Hfetch)).
  fold (fetch_target_request base token target).
  destruct (py_get fetched "sources" (PList [])) as [current|e] eqn:Hget.
  - rewrite (bind_lift_ok (Ok current) _ _ current eq_refl).
    destruct current as [| | | |l|d];
      try (exists TypeError; split; [now left|reflexivity]).
    + now destruct (Hnot l).
    + exists AttributeError. split; [now right|reflexivity].
  - exists e. split.
    + destruct fetched; cbn in Hget; try (injection Hget as <-; now right).
      discriminate.
    + reflexivity.
Qed.

(** No link is lost: the PUT that [connect_actions] sends holds, under
    [source_ids] in its JSON body, a list that starts with the whole fetched
    list in its order, has at most one more element, and holds the source
    id. *)
Theorem connect_actions_keeps_sources
    story_id source target source_output draft_id sent fetched l :
  answers remote sent (fetch_target_request base token target) fetched ->
  py_get fetched "sources" (PList []) = Ok (PList l) ->
  exists fetch write written tail,
    sends (connect_actions base token remote story_id source target
             source_output draft_id) sent [fetch; write]
    /\ method fetch = "GET"
    /\ json fetch = None
    /\ method write = "PUT"
    /\ url write = request_url base ("actions/" ++ str_of_int target)
    /\ json write = Some ([("source_ids", PList written)]
                          ++ field "draft_id" PInt (if_truthy draft_id))%list
    /\ written = (l ++ tail)%list
    /\ (List.length tail <= 1)%nat
    /\ existsb (py_eq_int source) written = true.
Proof.
  intros Hfetch Hsources.
  destruct (linked_keeps source l) as (tail & Hlinked & Hlen).
  exists (fetch_target_request base token target),
         (write_sources_request base token target (PList (linked source l)) draft_id),
         (linked source l), tail.
  split.
  { unfold sends. now apply connect_actions_requests with (fetched := fetched). }
  do 4 (split; [reflexivity|]).
  split; [cbn [write_sources_request build_request json]; now rewrite write_sources_body|].
  split; [exact Hlinked|]. split; [exact Hlen|]. apply linked_contains.
Qed.

End LinkingSteps.

(** ** The bodies and queries, field by field *)

Lemma dict_set_fresh (d : dict) (k : string) (v : pyval) :
  dict_get d k = None -> dict_set d k v = (d ++ [(k, v)])%list.
Proof.
  induction d as [|[k' v'] d IH]; cbn [dict_get dict_set app]; [reflexivity|].
  destruct (String.eqb k k'); [discriminate|].
  intros H. now rewrite IH.
Qed.

Lemma set_if_not_none_fresh {A : Type} (o : option A) (k : string)
    (f : A -> pyval) (d : dict) :
  dict_get d k = None -> set_if_not_none o k f d = (d ++ field k f o)%list.
Proof.
  intros H. destruct o as [a|]; cbn [set_if_not_none field].
  - now apply dict_set_fresh.
  - now rewrite app_nil_r.
Qed.

Lemma set_if_truthy_fresh {A : Type} `{Truthy A} (o : option A) (k : string)
    (f : A -> pyval) (d : dict) :
  dict_get d k = None ->
  set_if_truthy o k f d = (d ++ field k f (if_truthy o))%list.
Proof.
  intros Hk. destruct o as [a|]; cbn [set_if_truthy if_truthy field].
  - destruct (truthy a); cbn [field].
    + now apply dict_set_fresh.
    + now rewrite app_nil_r.
  - now rewrite app_nil_r.
Qed.

Lemma dict_get_app_field {A : Type} (d : dict) (k k' : string)
    (f : A -> pyval) (o : option A) :
  k' <> k -> dict_get (d ++ field k' f o)%list k = dict_get d k.
Proof.
  intros Hne. destruct o as [a|]; cbn [field]; [|now rewrite app_nil_r].
  induction d as [|[k0 v0] d IH]; cbn [app dict_get].
  - destruct (String.eqb_spec k k'); [congruence|reflexivity].
  - now rewrite IH.
Qed.

Lemma dict_get_app_one (d : dict) (k k' : string) (v : pyval) :
  k' <> k -> dict_get (d ++ [(k', v)])%list k = dict_get d k.
Proof.
  intros Hne. induction d as [|[k0 v0] d IH]; cbn [app dict_get].
  - destruct (String.eqb_spec k k'); [congruence|reflexivity].
  - now rewrite IH.
Qed.

(** A key that is not yet in the dict under construction. *)
Ltac fresh_key :=
  repeat first [ rewrite set_if_not_none_other by discriminate
               | rewrite set_if_truthy_other by discriminate
               | rewrite dict_get_app_field by discriminate
               | rewrite dict_get_app_one by discriminate ];
  reflexivity.

(** Turns a chain of conditional assignments into the list of its fields. *)
Ltac as_fields :=
  repeat first [ rewrite set_if_not_none_fresh by fresh_key
               | rewrite set_if_truthy_fresh by fresh_key ];
  repeat rewrite <- app_assoc; reflexivity.

Section Fields.

Variables base token : string.
Variable remote : list request -> request -> reply.

(** The JSON body of the PUT that [update_story] sends is, in the order of
    the signature, exactly the optional arguments that are not [None], each
    under its own name and with its value unchanged: [False], 0, empty
    strings and empty lists are sent like any other value. *)
Theorem update_story_sends_supplied_fields (story_id : Z) (a : story_update) sent :
  sends_request (update_story base token remote story_id a) sent
    "PUT" (request_url base ("stories/" ++ str_of_int story_id))
       (Some (field "name" PStr (su_name a)
              ++ field "description" PStr (su_description a)
              ++ field "add_tag_names" py_strs (su_add_tag_names a)
              ++ field "remove_tag_names" py_strs (su_remove_tag_names a)
              ++ field "keep_events_for" PInt (su_keep_events_for a)
              ++ field "disabled" PBool (su_disabled a)
              ++ field "locked" PBool (su_locked a)
              ++ field "priority" PBool (su_priority a)
              ++ field "send_to_story_access_source" PStr
                   (su_send_to_story_access_source a)
              ++ field "send_to_story_access" PStr (su_send_to_story_access a)
              ++ field "shared_team_slugs" py_strs (su_shared_team_slugs a)
              ++ field "send_to_story_skill_use_requires_confirmation" PBool
                   (su_send_to_story_skill_use_requires_confirmation a)
              ++ field "webhook_api_enabled" PBool (su_webhook_api_enabled a)
              ++ field "team_id" PInt (su_team_id a)
              ++ field "folder_id" PInt (su_folder_id a)
              ++ field "change_control_enabled" PBool (su_change_control_enabled a)
              ++ field "draft_id" PInt (su_draft_id a)
              ++ field "monitor_failures" PBool (su_monitor_failures a)
              ++ field "entry_action_id" PInt (su_entry_action_id a)
              ++ field "exit_action_ids" py_ints (su_exit_action_ids a))%list)
       None.
Proof.
  unfold update_story. apply make_request_sends_as; [|reflexivity].
  f_equal. unfold update_story_data. as_fields.
Qed.

(** The JSON body of the POST of [create_story] always holds [team_id],
    followed by the optional arguments that are not [None]; the query
    parameters of the GET of [get_story] hold [story_mode] only when it is a
    non-empty string and [draft_id] whenever it is given, 0 included. *)
Theorem create_and_get_story_fields
    (team_id story_id : Z) (name description story_mode : option string)
    (keep_events_for folder_id draft_id : option Z) (tags : option (list string))
    (disabled priority : option bool) sent :
  sends_request
    (create_story base token remote team_id name description keep_events_for
       folder_id tags disabled priority) sent
    "POST" (request_url base "stories")
       (Some ([("team_id", PInt team_id)]
              ++ field "name" PStr name
              ++ field "description" PStr description
              ++ field "keep_events_for" PInt keep_events_for
              ++ field "folder_id" PInt folder_id
              ++ field "tags" py_strs tags
              ++ field "disabled" PBool disabled
              ++ field "priority" PBool priority)%list) None
  /\ sends_request (get_story base token remote story_id story_mode draft_id) sent
       "GET" (request_url base ("stories/" ++ str_of_int story_id)) None
          (Some (field "story_mode" PStr (if_truthy story_mode)
                 ++ field "draft_id" PInt draft_id)%list).
Proof.
  split.
  - unfold create_story. apply make_request_sends_as; [|reflexivity].
    f_equal. as_fields.
  - unfold get_story. apply make_request_sends_as; [reflexivity|].
    f_equal. as_fields.
Qed.

(** The query parameters of the GET that [list_stories] sends, with no
    body: the ids and the page are sent whenever they are given, [per_page]
    is sent as [min(per_page, 500)], and [tags], [search], [filter] and
    [order] are sent only when they are non-empty strings. *)
Theorem list_stories_query
    (team_id folder_id per_page page : option Z)
    (tags search filter order : option string) sent :
  sends_request
    (list_stories base token remote team_id folder_id per_page page
       tags search filter order) sent
    "GET" (request_url base "stories") None
       (Some (field "team_id" PInt team_id
              ++ field "folder_id" PInt folder_id
              ++ field "per_page" (fun n => PInt (Z.min n 500)) per_page
              ++ field "page" PInt page
              ++ field "tags" PStr (if_truthy tags)
              ++ field "search" PStr (if_truthy search)
              ++ field "filter" PStr (if_truthy filter)
              ++ field "order" PStr (if_truthy order))%list).
Proof.
  unfold list_stories. apply make_request_sends_as; [reflexivity|].
  f_equal. as_fields.
Qed.

(** [update_action] sends an argument only when it is truthy: an empty
    name, empty [options], an empty [position] and [draft_id=0] are left
    out like arguments that were not given; [story_id] is not sent at
    all. *)
Theorem update_action_fields
    (story_id action_id : Z) (name : option string) (options position : option dict)
    (draft_id : option Z) sent :
  sends (update_action base token remote story_id action_id name options
           position draft_id) sent
    [build_request base token "PUT" ("actions/" ++ str_of_int action_id)
       (Some (field "name" PStr (if_truthy name)
              ++ field "options" PDict (if_truthy options)
              ++ field "position" PDict (if_truthy position)
              ++ field "draft_id" PInt (if_truthy draft_id))%list) None].
Proof.
  unfold sends, update_action. rewrite make_request_sent.
  do 4 f_equal. as_fields.
Qed.

End Fields.

(** ** Actions *)

Lemma set_position_fresh (default : dict) (position : option dict) (d : dict) :
  dict_get d "position" = None ->
  (if truthy position
   then set_if_not_none position "position" PDict d
   else dict_set d "position" (PDict default))
  = (d ++ [("position", PDict (position_or default position))])%list.
Proof.
  intros Hk. unfold position_or.
  destruct position as [[|kv p]|]; cbn; now apply dict_set_fresh.
Qed.

Section Actions.

Variables base token : string.
Variable remote : list request -> request -> reply.

(** The JSON body of the POST that [create_action] sends to [actions]:
    type, name and the story id as a decimal
    string, then [draft_id] whenever it is given (0 included), [options]
    only when it is a non-empty dict, and always a position, which is the
    caller's when that is a non-empty dict and [{x: 100, y: 100}]
    otherwise. *)
Theorem create_action_fields
    (story_id : Z) (action_type name : string) (options position : option dict)
    (draft_id : option Z) sent :
  sends_request
    (create_action base token remote story_id action_type name options
       position draft_id) sent
    "POST" (request_url base "actions")
       (Some ([("type", PStr action_type);
               ("name", PStr name);
               ("story_id", PStr (str_of_int story_id))]
              ++ field "draft_id" PInt draft_id
              ++ field "options" PDict (if_truthy options)
              ++ [("position", PDict (position_or action_default_position position))])%list)
       None.
Proof.
  unfold create_action. apply make_request_sends_as; [|reflexivity].
  f_equal.
  rewrite set_position_fresh by fresh_key.
  as_fields.
Qed.

Lemma create_typed_action
    (story_id : Z) (action_type name : string) (options : dict)
    (position : option dict) (draft_id : Z) sent :
  sends_request
    (create_action base token remote story_id action_type name (Some options)
       position (Some draft_id)) sent
    "POST" (request_url base "actions")
       (Some (typed_action_body action_type name story_id draft_id options position))
       None.
Proof.
  unfold create_action, typed_action_body.
  apply make_request_sends_as; [|reflexivity].
  f_equal.
  rewrite set_position_fresh by fresh_key.
  as_fields.
Qed.

(** Each typed wrapper sends one POST to [actions] whose JSON body holds
    its own type with the caller's name, story and draft (a draft id of 0
    included) and the usual position; its options are the required ones
    followed by the optional ones that are truthy.  The email sender goes
    out as [from], and a webhook without a secret has no options at all. *)
Theorem typed_actions_fields
    (story_id draft_id target_story_id group_story_id port : Z)
    (name mode to subject body content_type host username password folder prompt
       : string)
    (message secret from_email cc bcc : option string)
    (payload conditions position : option dict)
    (rules : list pyval) (ssl json_mode : bool) sent :
  sends_request (create_event_transform_action base token remote story_id name draft_id
           mode message payload position) sent
    "POST" (request_url base "actions")
       (Some (typed_action_body "Agents::EventTransformationAgent" name
                story_id draft_id
                ([("mode", PStr mode)]
                 ++ field "message" PStr (if_truthy message)
                 ++ field "payload" PDict (if_truthy payload))%list
                position)) None
  /\ sends_request (create_webhook_action base token remote story_id name draft_id
              secret position) sent
       "POST" (request_url base "actions")
          (Some (typed_action_body "Agents::WebhookAgent" name story_id draft_id
                   (field "secret" PStr (if_truthy secret)) position)) None
  /\ sends_request (create_email_action base token remote story_id name draft_id
              to subject body from_email cc bcc content_type position) sent
       "POST" (request_url base "actions")
          (Some (typed_action_body "Agents::EmailAgent" name story_id draft_id
                   ([("to", PStr to);
                     ("subject", PStr subject);
                     ("body", PStr body);
                     ("content_type", PStr content_type)]
                    ++ field "from" PStr (if_truthy from_email)
                    ++ field "cc" PStr (if_truthy cc)
                    ++ field "bcc" PStr (if_truthy bcc))%list
                   position)) None
  /\ sends_request (create_imap_action base token remote story_id name draft_id
              host username password port ssl folder conditions position) sent
       "POST" (request_url base "actions")
          (Some (typed_action_body "Agents::IMAPAgent" name story_id draft_id
                   ([("host", PStr host);
                     ("username", PStr username);
                     ("password", PStr password);
                     ("port", PInt port);
                     ("ssl", PBool ssl);
                     ("folder", PStr folder)]
                    ++ field "conditions" PDict (if_truthy conditions))%list
                   position)) None
  /\ sends_request (create_send_to_story_action base token remote story_id name draft_id
              target_story_id payload position) sent
       "POST" (request_url base "actions")
          (Some (typed_action_body "Agents::SendToStoryAgent" name story_id draft_id
                   ([("story_id", PInt target_story_id)]
                    ++ field "payload" PDict (if_truthy payload))%list
                   position)) None
  /\ sends_request (create_trigger_action base token remote story_id name draft_id
              rules message position) sent
       "POST" (request_url base "actions")
          (Some (typed_action_body "Agents::TriggerAgent" name story_id draft_id
                   ([("rules", PList rules)]
                    ++ field "message" PStr (if_truthy message))%list
                   position)) None
  /\ sends_request (create_group_action base token remote story_id name draft_id
              group_story_id position) sent
       "POST" (request_url base "actions")
          (Some (typed_action_body "Agents::GroupAgent" name story_id draft_id
                   [("group_story_id", PInt group_story_id)] position)) None
  /\ sends_request (create_llm_action base token remote story_id name prompt draft_id
              json_mode position) sent
       "POST" (request_url base "actions")
          (Some (typed_action_body "Agents::LLMAgent" name story_id draft_id
                   [("prompt", PStr prompt); ("json_mode", PBool json_mode)]
                   position)) None.
Proof.
  repeat match goal with |- _ /\ _ => split end.
  - unfold create_event_transform_action.
    repeat rewrite set_if_truthy_fresh by fresh_key.
    rewrite <- app_assoc. apply create_typed_action.
  - unfold create_webhook_action.
    rewrite set_if_truthy_fresh by fresh_key. apply create_typed_action.
  - unfold create_email_action.
    repeat rewrite set_if_truthy_fresh by fresh_key.
    rewrite <- !app_assoc. apply create_typed_action.
  - unfold create_imap_action.
    rewrite set_if_truthy_fresh by fresh_key. apply create_typed_action.
  - unfold create_send_to_story_action.
    rewrite set_if_truthy_fresh by fresh_key. apply create_typed_action.
  - unfold create_trigger_action.
    rewrite set_if_truthy_fresh by fresh_key. apply create_typed_action.
  - apply create_typed_action.
  - apply create_typed_action.
Qed.

End Actions.

(** ** Notes *)

Lemma app_one_neq {A : Type} (l : list A) (x : A) : (l ++ [x])%list <> l.
Proof.
  intros H. apply (f_equal (@List.length A)) in H.
  rewrite length_app in H. cbn in H. lia.
Qed.

Section Notes.

Variables base token : string.
Variable remote : list request -> request -> reply.

(** [create_note] sends nothing and raises its [ValueError] exactly when
    neither [story_id] nor [group_id] is a non-zero id.  Otherwise it sends
    one POST to [notes] whose JSON body holds the content, the ids that are
    non-zero, a position (the caller's when that is a non-empty dict,
    [{x: 0, y: 0}] otherwise) and [draft_id] when it is non-zero. *)
Theorem create_note_fields
    (content : string) (story_id group_id : option Z) (position : option dict)
    (draft_id : option Z) sent :
  (create_note base token remote content story_id group_id position draft_id sent
   = (Raise (ValueError "Either story_id or group_id must be provided"), sent)
   <-> if_truthy story_id = None /\ if_truthy group_id = None)
  /\ match if_truthy story_id, if_truthy group_id with
     | None, None =>
         sends (create_note base token remote content story_id group_id position
                  draft_id) sent []
     | _, _ =>
         sends_request
           (create_note base token remote content story_id group_id position
              draft_id) sent
           "POST" (request_url base "notes")
           (Some ([("content", PStr content)]
                  ++ field "story_id" PInt (if_truthy story_id)
                  ++ field "group_id" PInt (if_truthy group_id)
                  ++ [("position",
                       PDict (position_or note_default_position position))]
                  ++ field "draft_id" PInt (if_truthy draft_id))%list) None
     end.
Proof.
  assert (Hsent : truthy story_id || truthy group_id = true ->
            sends_request
              (create_note base token remote content story_id group_id
                 position draft_id) sent
              "POST" (request_url base "notes")
                 (Some ([("content", PStr content)]
                        ++ field "story_id" PInt (if_truthy story_id)
                        ++ field "group_id" PInt (if_truthy group_id)
                        ++ [("position",
                             PDict (position_or note_default_position position))]
                        ++ field "draft_id" PInt (if_truthy draft_id))%list) None).
  { intros Hsome. unfold create_note.
    rewrite <- negb_orb, Hsome. cbn [negb].
    apply make_request_sends_as; [|reflexivity]. f_equal.
    rewrite set_if_truthy_fresh with (k := "draft_id")
      by (rewrite set_position_fresh by fresh_key; fresh_key).
    rewrite set_position_fresh by fresh_key.
    repeat rewrite set_if_truthy_fresh by fresh_key.
    repeat rewrite <- app_assoc. reflexivity. }
  assert (Hnone : truthy story_id || truthy group_id = false ->
            create_note base token remote content story_id group_id
              position draft_id sent
            = (Raise (ValueError "Either story_id or group_id must be provided"),
               sent)).
  { intros Hfalse. unfold create_note. rewrite <- negb_orb, Hfalse. reflexivity. }
  assert (Hcases : (truthy story_id || truthy group_id = false
                    /\ if_truthy story_id = None /\ if_truthy group_id = None)
                   \/ (truthy story_id || truthy group_id = true
                       /\ (if_truthy story_id <> None \/ if_truthy group_id <> None))).
  { destruct story_id as [s|], group_id as [g|]; cbn [if_truthy];
      change (truthy (Some s)) with (truthy s) || idtac;
      change (truthy (Some g)) with (truthy g) || idtac;
      change (truthy (@None Z)) with false;
      try destruct (truthy s); try destruct (truthy g); cbn;
      first [ left; repeat split; reflexivity
            | right; split; [reflexivity|];
              first [ left; discriminate | right; discriminate ] ]. }
  destruct Hcases as [(Hfalse & Hs & Hg)|(Htrue & Hsome)].
  - split.
    + split; [auto|intros _; now apply Hnone].
    + rewrite Hs, Hg. unfold sends. rewrite (Hnone Hfalse).
      cbn [snd]. now rewrite app_nil_r.
  - split.
    + split.
      * intros Hraise. apply (f_equal snd) in Hraise.
        destruct (Hsent Htrue) as (req & Hreq & _).
        rewrite Hreq in Hraise. cbn [snd] in Hraise.
        now apply app_one_neq in Hraise.
      * intros [Hs Hg]. destruct Hsome; contradiction.
    + specialize (Hsent Htrue).
      destruct (if_truthy story_id), (if_truthy group_id); try exact Hsent.
      destruct Hsome as [H|H]; now destruct H.
Qed.

(** [update_note] sends nothing and raises its [ValueError] exactly when
    both [content] and [position] are [None].  Otherwise it sends one PUT to
    the note whose JSON body holds the arguments that were given; an empty
    content and an empty position are sent as they are. *)
Theorem update_note_fields
    (note_id : Z) (content : option string) (position : option dict) sent :
  (update_note base token remote note_id content position sent
   = (Raise (ValueError "At least one of content or position must be provided"),
      sent)
   <-> content = None /\ position = None)
  /\ match content, position with
     | None, None =>
         sends (update_note base token remote note_id content position) sent []
     | _, _ =>
         sends_request (update_note base token remote note_id content position) sent
           "PUT" (request_url base ("notes/" ++ str_of_int note_id))
           (Some (field "content" PStr content
                  ++ field "position" PDict position)%list) None
     end.
Proof.
  destruct content as [c|], position as [p|]; (split; [split|]);
    try (intros [? ?]; discriminate);
    try (intros Hraise; apply (f_equal snd) in Hraise;
         unfold update_note in Hraise; cbn [set_if_not_none] in Hraise;
         match type of Hraise with
         | context [truthy ?d] => change (truthy d) with true in Hraise
         end;
         cbn [negb] in Hraise; rewrite make_request_sent in Hraise;
         cbn [snd] in Hraise; now apply app_one_neq in Hraise);
    try (unfold update_note; cbn [set_if_not_none];
         match goal with
         | |- context [truthy ?d] => change (truthy d) with true
         end;
         cbn [negb]; apply make_request_sends_as; reflexivity).
  - intros _. split; reflexivity.
  - intros _. reflexivity.
  - unfold sends. cbn. now rewrite app_nil_r.
Qed.

End Notes.

(** ** Endpoints that carry their own query string *)

Section Endpoints.

Variables base token : string.
Variable remote : list request -> request -> reply.

(** [get_story_actions] puts its query into the endpoint and passes neither
    a body nor query parameters: the story id always, the draft id only
    when it is non-zero. *)
Theorem get_story_actions_endpoint (story_id : Z) (draft_id : option Z) sent :
  sends (get_story_actions base token remote story_id draft_id) sent
    [build_request base token "GET"
       ("agents?story_id=" ++ str_of_int story_id
        ++ match if_truthy draft_id with
           | Some n => "&draft_id=" ++ str_of_int n
           | None => ""
           end) None None].
Proof.
  unfold sends, get_story_actions. rewrite make_request_sent.
  do 3 f_equal.
  destruct draft_id as [n|]; cbn [if_truthy].
  - destruct (truthy n); cbn; now rewrite ?append_assoc, ?append_empty_r.
  - cbn. now rewrite append_empty_r.
Qed.

(** [list_notes] requests [notes] alone when no filter is given, and
    otherwise [notes?] followed by the given filters as [name=value] joined
    by [&], in the order story, group, team, mode, draft, per_page, page.
    Every filter that is not [None] is sent, 0 and the empty string
    included, and [per_page] is sent as it is, without the cap of
    [list_stories]. *)
Theorem list_notes_endpoint
    (story_id group_id team_id : option Z) (mode : option string)
    (draft_id per_page page : option Z) sent :
  sends (list_notes base token remote story_id group_id team_id mode
           draft_id per_page page) sent
    [build_request base token "GET"
       (match (qfield "story_id" QInt story_id
               ++ qfield "group_id" QInt group_id
               ++ qfield "team_id" QInt team_id
               ++ qfield "mode" QStr mode
               ++ qfield "draft_id" QInt draft_id
               ++ qfield "per_page" QInt per_page
               ++ qfield "page" QInt page)%list with
        | [] => "notes"
        | filters => "notes?" ++ query_string filters
        end) None None].
Proof.
  unfold sends, list_notes. rewrite make_request_sent.
  destruct story_id, group_id, team_id, mode, draft_id, per_page, page;
    reflexivity.
Qed.

(** [delete_note] does not look at the answer: whenever the deletion is
    answered with a JSON value, whatever it is, the result is
    [{"deleted": True, "note_id": note_id}]. *)
Theorem delete_note_confirms (note_id : Z) sent (answer : pyval) :
  answers remote sent
    (build_request base token "DELETE" ("notes/" ++ str_of_int note_id) None None)
    answer ->
  delete_note base token remote note_id sent
  = (Ok (PDict [("deleted", PBool true); ("note_id", PInt note_id)]),
     (sent ++ [build_request base token "DELETE"
                 ("notes/" ++ str_of_int note_id) None None])%list).
Proof.
  intros Hanswer. unfold delete_note.
  now rewrite (bind_ok _ _ _ _ _ (make_request_answers _ _ _ _ _ _ _ _ _ Hanswer)).
Qed.

(** [debug_endpoint] never raises: it returns a dict whose [success] is
    true with the value of the request under [data] when the request
    returned, and false with the text of the exception under [error] when
    it raised. *)
Theorem debug_endpoint_never_raises
    (str_of_exn : exn -> string) (endpoint method : string) (data : option dict)
    sent :
  exists report,
    fst (debug_endpoint str_of_exn base token remote endpoint method data sent)
    = Ok (PDict report)
    /\ ((exists v,
           fst (make_request base token remote method endpoint data None sent) = Ok v
           /\ report = [("success", PBool true); ("data", v)])
        \/ (exists e,
              fst (make_request base token remote method endpoint data None sent)
              = Raise e
              /\ report = [("success", PBool false); ("error", PStr (str_of_exn e))])).
Proof.
  unfold debug_endpoint, try_except, bind.
  destruct (make_request base token remote method endpoint data None sent)
    as [[v|e] sent1]; cbn [fst ret]; eexists; (split; [reflexivity|]).
  - left. now exists v.
  - right. now exists e.
Qed.

End Endpoints.

(** ** Start-up *)

Lemma require_env_ok (env : string -> option string) (name message value : string) :
  require_env env name message = Ok value <-> env name = Some value /\ value <> "".
Proof.
  unfold require_env. destruct (env name) as [v|]; [|split; [discriminate|]].
  - destruct v as [|a v]; cbn.
    + split; [discriminate|]. intros [H Hne]. injection H as <-. contradiction.
    + split.
      * intros H. injection H as <-. split; [reflexivity|discriminate].
      * intros [H _]. now injection H as <-.
  - intros [H _]. discriminate.
Qed.

(** The configuration is accepted exactly when both variables are set to
    non-empty strings, and then it is their values; the error about the
    token is raised exactly when the token is missing or empty, whatever
    the URL is. *)
Theorem load_config_requires_both (env : string -> option string)
    (url token : string) :
  (load_config env = Ok (url, token)
   <-> env "TINES_API_TOKEN" = Some token /\ token <> ""
       /\ env "TINES_API_URL" = Some url /\ url <> "")
  /\ (load_config env
      = Raise (ValueError "TINES_API_TOKEN environment variable is not set")
      <-> if_truthy (env "TINES_API_TOKEN") = None).
Proof.
  split.
  - unfold load_config.
    destruct (require_env env "TINES_API_TOKEN" _) as [t|e] eqn:Ht.
    + apply require_env_ok in Ht as [Ht Htne].
      destruct (require_env env "TINES_API_URL" _) as [u|e] eqn:Hu.
      * apply require_env_ok in Hu as [Hu Hune]. split.
        -- intros H. injection H as <- <-. auto.
        -- intros (Ht' & _ & Hu' & _). congruence.
      * split; [discriminate|]. intros (_ & _ & Hu' & Hune).
        assert (H : require_env env "TINES_API_URL"
                      "TINES_API_URL environment variable is not set. Use format: https://your-tenant.tines.com/api/v1"
                    = Ok url) by now apply require_env_ok.
        congruence.
    + split; [discriminate|]. intros (Ht' & Htne & _).
      assert (H : require_env env "TINES_API_TOKEN"
                    "TINES_API_TOKEN environment variable is not set"
                  = Ok token) by now apply require_env_ok.
      congruence.
  - unfold load_config, require_env, if_truthy.
    destruct (env "TINES_API_TOKEN") as [t|]; [|split; reflexivity].
    destruct (truthy t).
    + split; [|discriminate].
      destruct (env "TINES_API_URL") as [u|]; [destruct (truthy u)|]; discriminate.
    + split; reflexivity.
Qed.

(** ** Slashes and ids in the URL *)

Lemma rstrip_only_slashes (n : nat) : rstrip "/" (slashes n) = "".
Proof.
  induction n as [|n IH]; [reflexivity|].
  cbn [slashes rstrip]. now rewrite IH.
Qed.

Lemma rstrip_app_slashes (s : string) (n : nat) :
  rstrip "/" (s ++ slashes n) = rstrip "/" s.
Proof.
  induction s as [|a s IH]; cbn [append].
  - apply rstrip_only_slashes.
  - cbn [rstrip]. now rewrite IH.
Qed.

Lemma lstrip_app_slashes (m : nat) (s : string) :
  lstrip "/" (slashes m ++ s) = lstrip "/" s.
Proof.
  induction m as [|m IH]; [reflexivity|exact IH].
Qed.

(** Slashes at the end of the base URL and at the start of an endpoint make
    no difference: any number of them gives the URL of the base and the
    endpoint without them. *)
Theorem request_url_ignores_extra_slashes (base endpoint : string) (n m : nat) :
  request_url (base ++ slashes n) (slashes m ++ endpoint) = request_url base endpoint.
Proof.
  unfold request_url. now rewrite rstrip_app_slashes, lstrip_app_slashes.
Qed.

Lemma to_int_not_empty (z : Z) :
  Z.to_int z <> Decimal.Pos Decimal.Nil /\ Z.to_int z <> Decimal.Neg Decimal.Nil.
Proof.
  destruct z as [|p|p]; cbn [Z.to_int]; split; try discriminate;
    intros H; injection H as H; now apply DecimalPos.Unsigned.to_uint_nonnil in H.
Qed.

(** [str] of an int determines the int. *)
Lemma str_of_int_inj (a b : Z) : str_of_int a = str_of_int b -> a = b.
Proof.
  unfold str_of_int. intros H.
  apply (f_equal NilZero.int_of_string) in H.
  destruct (to_int_not_empty a) as [Ha Ha'], (to_int_not_empty b) as [Hb Hb'].
  rewrite !NilZero.isi in H by assumption.
  injection H as H. now apply DecimalZ.to_int_inj.
Qed.

Lemma resource_url_inj (base : string) (c : ascii) (r : string) (a b : Z) :
  Ascii.eqb c "/" = false ->
  request_url base (String c r ++ str_of_int a)
  = request_url base (String c r ++ str_of_int b) ->
  a = b.
Proof.
  intros Hc. unfold request_url. cbn [append lstrip]. rewrite Hc.
  intros H. apply append_inj_l in H. apply (append_inj_l "/") in H.
  injection H as H. apply append_inj_l in H. now apply str_of_int_inj.
Qed.

Lemma sent_urls_inj (sent : list request) (r1 r2 : request) :
  map url (sent ++ [r1]) = map url (sent ++ [r2]) -> url r1 = url r2.
Proof.
  rewrite !map_app. intros H. apply app_inv_head in H. now injection H.
Qed.

Section Resources.

Variables base token : string.
Variable remote : list request -> request -> reply.

(** Requests for two stories, two actions or two notes go to the same URL
    only when the two ids are the same: the decimal text of an id
    determines the id. *)
Theorem resource_urls_identify_ids (a b story_id story_id' : Z) sent :
  (map url (snd (get_story base token remote a None None sent))
   = map url (snd (get_story base token remote b None None sent)) <-> a = b)
  /\ (map url (snd (delete_action base token remote story_id a sent))
      = map url (snd (delete_action base token remote story_id' b sent)) <-> a = b)
  /\ (map url (snd (get_note base token remote a sent))
      = map url (snd (get_note base token remote b sent)) <-> a = b).
Proof.
  unfold get_story, delete_action, get_note.
  rewrite !make_request_sent.
  repeat split; try (intros ->; reflexivity);
    intros H; apply sent_urls_inj in H;
    now apply resource_url_inj in H.
Qed.

End Resources.

(** ** The further statements at concrete inputs *)

(** A 404 with a JSON body. *)
Lemma make_request_error_status_run :
  error_status 404
  /\ make_request "https://tenant.tines.com/api/v1" "token"
       (always (Response (mkResponse 404 (JsonBody (PDict [("error", PStr "not found")])))))
       "GET" "stories/5" None None []
     = (Raise (HTTPError 404),
        [build_request "https://tenant.tines.com/api/v1" "token"
           "GET" "stories/5" None None]).
Proof.
  assert (Herr : error_status 404) by (unfold error_status; lia).
  split; [exact Herr|].
  apply (make_request_error_status "https://tenant.tines.com/api/v1" "token"
           (always (Response (mkResponse 404
                                (JsonBody (PDict [("error", PStr "not found")])))))
           "GET" "stories/5" None None []
           (mkResponse 404 (JsonBody (PDict [("error", PStr "not found")])))).
  - reflexivity.
  - exact Herr.
Defined.

(** A 200 with the story as JSON. *)
Lemma make_request_returns_only_json_run :
  exists r,
    always (ok (PDict [("id", PInt 5)])) []
      (build_request "https://tenant.tines.com/api/v1" "token"
         "GET" "stories/5" None None)
    = Response r
    /\ ~ error_status (status_code r)
    /\ content r = JsonBody (PDict [("id", PInt 5)]).
Proof.
  apply (make_request_returns_only_json "https://tenant.tines.com/api/v1" "token"
           (always (ok (PDict [("id", PInt 5)])))
           "GET" "stories/5" None None [] (PDict [("id", PInt 5)])
           [build_request "https://tenant.tines.com/api/v1" "token"
              "GET" "stories/5" None None]).
  reflexivity.
Defined.

(** The update of story 42 is refused with a 403. *)
Lemma create_story_draft_update_fails_run :
  create_story_draft "https://tenant.tines.com/api/v1" "token"
    (always (Response (mkResponse 403 EmptyBody))) 42 []
  = (Raise (HTTPError 403),
     [add_tag_request "https://tenant.tines.com/api/v1" "token" 42]).
Proof.
  apply (create_story_draft_update_fails "https://tenant.tines.com/api/v1" "token"
           (always (Response (mkResponse 403 EmptyBody))) 42 [] (HTTPError 403)).
  reflexivity.
Defined.

(** The first listed draft of story 42 has a name and no id. *)
Lemma create_story_draft_draft_without_id_run :
  dict_get [("name", PStr "Draft 1")] "id" = None
  /\ create_story_draft "https://tenant.tines.com/api/v1" "token"
       (scripted [ok (PDict [("id", PInt 42)]);
                  ok (PDict [("drafts", PList [PDict [("name", PStr "Draft 1")]])])])
       42 []
     = (Raise KeyError,
        [add_tag_request "https://tenant.tines.com/api/v1" "token" 42;
         list_drafts_request "https://tenant.tines.com/api/v1" "token" 42]).
Proof.
  split; [reflexivity|].
  apply (create_story_draft_draft_without_id "https://tenant.tines.com/api/v1" "token"
           (scripted [ok (PDict [("id", PInt 42)]);
                      ok (PDict [("drafts", PList [PDict [("name", PStr "Draft 1")]])])])
           42 [] (PDict [("id", PInt 42)])
           [("drafts", PList [PDict [("name", PStr "Draft 1")]])]
           [("name", PStr "Draft 1")] []).
  - eexists. repeat split; reflexivity.
  - eexists. repeat split; reflexivity.
  - reflexivity.
  - reflexivity.
Defined.

(** Draft 77 is found, and the removal of the tag is answered with a
    500. *)
Lemma create_story_draft_removal_fails_run :
  create_story_draft "https://tenant.tines.com/api/v1" "token"
    (scripted [ok (PDict [("id", PInt 42)]);
               ok (PDict [("drafts", PList [PDict [("id", PInt 77)]])]);
               Response (mkResponse 500 EmptyBody)])
    42 []
  = (Raise (HTTPError 500),
     [add_tag_request "https://tenant.tines.com/api/v1" "token" 42;
      list_drafts_request "https://tenant.tines.com/api/v1" "token" 42;
      remove_tag_request "https://tenant.tines.com/api/v1" "token" 42 (PInt 77)]).
Proof.
  apply (create_story_draft_removal_fails "https://tenant.tines.com/api/v1" "token"
           (scripted [ok (PDict [("id", PInt 42)]);
                      ok (PDict [("drafts", PList [PDict [("id", PInt 77)]])]);
                      Response (mkResponse 500 EmptyBody)])
           42 [] (PDict [("id", PInt 42)])
           [("drafts", PList [PDict [("id", PInt 77)]])]
           [("id", PInt 77)] [] (PInt 77) (HTTPError 500)).
  - eexists. repeat split; reflexivity.
  - eexists. repeat split; reflexivity.
  - reflexivity.
  - reflexivity.
  - reflexivity.
Defined.

(** A successful run on story 42 that finds draft 77: the third request
    holds [draft_id = 77] in its body. *)
Lemma create_story_draft_returns_after_removal_run :
  exists add listed removal,
    snd (create_story_draft "https://tenant.tines.com/api/v1" "token"
           (scripted [ok (PDict [("id", PInt 42)]);
                      ok (PDict [("drafts", PList [PDict [("id", PInt 77)]])]);
                      ok (PDict [("id", PInt 42)])])
           42 [])
    = [add; listed; removal]
    /\ url removal = "https://tenant.tines.com/api/v1/stories/42"
    /\ json removal = Some [("remove_tag_names", PList [PStr "draft-creation"]);
                            ("draft_id", PInt 77)].
Proof.
  destruct (create_story_draft_returns_after_removal
              "https://tenant.tines.com/api/v1" "token"
              (scripted [ok (PDict [("id", PInt 42)]);
                         ok (PDict [("drafts", PList [PDict [("id", PInt 77)]])]);
                         ok (PDict [("id", PInt 42)])])
              42 [] (PDict [("id", PInt 77)])
              [add_tag_request "https://tenant.tines.com/api/v1" "token" 42;
               list_drafts_request "https://tenant.tines.com/api/v1" "token" 42;
               remove_tag_request "https://tenant.tines.com/api/v1" "token" 42 (PInt 77)])
    as (listing & others & draft & draft_id & add & listed & removal
        & _ & _ & Hdraft & Hid & Hsent & _ & _ & _ & _ & _ & _ & _ & Hurl & Hjson & _).
  - reflexivity.
  - exists add, listed, removal.
    injection Hdraft as <-. injection Hid as <-.
    split; [exact Hsent|]. split; [exact Hurl|exact Hjson].
Defined.

(** The target cannot be reached. *)
Lemma connect_actions_fetch_fails_run :
  connect_actions "https://tenant.tines.com/api/v1" "token" (always NoResponse)
    1 7 9 None None []
  = (Raise ConnectionError,
     [fetch_target_request "https://tenant.tines.com/api/v1" "token" 9]).
Proof.
  apply (connect_actions_fetch_fails "https://tenant.tines.com/api/v1" "token"
           (always NoResponse) 1 7 9 None None [] ConnectionError).
  reflexivity.
Defined.

(** The target comes back with ["sources": null]. *)
Lemma connect_actions_needs_source_list_run :
  exists e,
    (e = TypeError \/ e = AttributeError)
    /\ connect_actions "https://tenant.tines.com/api/v1" "token"
         (always (ok (PDict [("id", PInt 9); ("sources", PNone)])))
         1 7 9 None None []
       = (Raise e, [fetch_target_request "https://tenant.tines.com/api/v1" "token" 9]).
Proof.
  apply (connect_actions_needs_source_list "https://tenant.tines.com/api/v1" "token"
           (always (ok (PDict [("id", PInt 9); ("sources", PNone)])))
           1 7 9 None None [] (PDict [("id", PInt 9); ("sources", PNone)])).
  - eexists. repeat split; reflexivity.
  - intros l. discriminate.
Defined.

(** Source 7 joins a target that already has sources 3 and 4, in draft
    12. *)
Lemma connect_actions_keeps_sources_run :
  exists fetch write,
    sends (connect_actions "https://tenant.tines.com/api/v1" "token"
             (always (ok (PDict [("sources", PList [PInt 3; PInt 4])])))
             1 7 9 None (Some 12)) [] [fetch; write]
    /\ json write = Some [("source_ids", PList [PInt 3; PInt 4; PInt 7]);
                          ("draft_id", PInt 12)].
Proof.
  destruct (connect_actions_keeps_sources "https://tenant.tines.com/api/v1" "token"
              (always (ok (PDict [("sources", PList [PInt 3; PInt 4])])))
              1 7 9 None (Some 12) []
              (PDict [("sources", PList [PInt 3; PInt 4])]) [PInt 3; PInt 4])
    as (fetch & write & written & tail & Hsent & _).
  - eexists. repeat split; reflexivity.
  - reflexivity.
  - exists fetch, write. split; [exact Hsent|].
    unfold sends in Hsent.
    apply (f_equal (fun l => nth 1 l write)) in Hsent. cbn in Hsent.
    now rewrite <- Hsent.
Defined.

(** The deletion of note 7 is answered with the deleted note. *)
Lemma delete_note_confirms_run :
  delete_note "https://tenant.tines.com/api/v1" "token"
    (always (ok (PDict [("id", PInt 7); ("content", PStr "old")]))) 7 []
  = (Ok (PDict [("deleted", PBool true); ("note_id", PInt 7)]),
     [build_request "https://tenant.tines.com/api/v1" "token"
        "DELETE" "notes/7" None None]).
Proof.
  apply (delete_note_confirms "https://tenant.tines.com/api/v1" "token"
           (always (ok (PDict [("id", PInt 7); ("content", PStr "old")]))) 7 []
           (PDict [("id", PInt 7); ("content", PStr "old")])).
  eexists. repeat split; reflexivity.
Defined.
